(** * ESPEI datasets from a DFTTK MongoDB: [dfttktojson.py]

    A shallow embedding of [src/DFTTK-datasets/dfttktojson.py] and the
    properties of its two functions, [update_metadata] and
    [dfttk_writeto_json].

    The script is glue code: it queries a MongoDB collection, calls into
    pymatgen / dfttk / numpy / json and writes one file.  The embedding
    keeps the script's own control and data flow (loops, local variables
    that may be unbound, list appends, dict stores, slicing, the final
    branch on [writefile]) and takes every function of an imported library
    as a field of the interface [Lib].  Exceptions are values of [exn];
    the database, the file system and the history of [make_dataset] calls
    form the [World] that the script runs in. *)

From Stdlib Require Import ZArith List String Ascii Bool Arith Lia.
From Stdlib Require Import Sorting.Permutation Sorting.Sorted.
Import ListNotations.
Open Scope string_scope.
Set Warnings "-register-all".

(* ================================================================== *)
(** * Python values, exceptions and built-in operations *)
(* ================================================================== *)

Module Py.

(** Exceptions.  The first five are the ones the interpreter or numpy
    raises for the script's own operations; [LibraryError] stands for
    whatever a library call or the database driver raises. *)
Inductive exn : Type :=
| KeyError (key : string)
| TypeError (type_name : string)
| IndexError (msg : string)
| ValueError (msg : string)
| UnboundLocalError (name : string)
| LibraryError (cls msg : string).

Inductive result (A : Type) : Type :=
| Ok (a : A)
| Raise (e : exn).
Arguments Ok {A} a.
Arguments Raise {A} e.

Definition rbind {A B : Type} (r : result A) (k : A -> result B) : result B :=
  match r with
  | Ok a => k a
  | Raise e => Raise e
  end.

Definition is_ok {A : Type} (r : result A) : bool :=
  match r with Ok _ => true | Raise _ => false end.

(** JSON/BSON-like Python values.  [num] is the carrier of floating point
    numbers: the script stores and moves them but never computes on them. *)
Inductive pyval (num : Type) : Type :=
| PyNone
| PyBool (b : bool)
| PyInt (z : Z)
| PyFloat (x : num)
| PyStr (s : string)
| PyList (l : list (pyval num))
| PyDict (d : list (string * pyval num)).
Arguments PyNone {num}.
Arguments PyBool {num} b.
Arguments PyInt {num} z.
Arguments PyFloat {num} x.
Arguments PyStr {num} s.
Arguments PyList {num} l.
Arguments PyDict {num} d.

Definition type_name {num : Type} (v : pyval num) : string :=
  match v with
  | PyNone => "NoneType"
  | PyBool _ => "bool"
  | PyInt _ => "int"
  | PyFloat _ => "float"
  | PyStr _ => "str"
  | PyList _ => "list"
  | PyDict _ => "dict"
  end.

(** A dict with [str] keys, in insertion order. *)
Fixpoint dict_get {V : Type} (d : list (string * V)) (k : string) : option V :=
  match d with
  | [] => None
  | (k', v) :: t => if String.eqb k' k then Some v else dict_get t k
  end.

(** [d[k] = v]: an existing key keeps its place, a new key goes last. *)
Fixpoint dict_set {V : Type} (d : list (string * V)) (k : string) (v : V)
  : list (string * V) :=
  match d with
  | [] => [(k, v)]
  | (k', v') :: t =>
      if String.eqb k' k then (k', v) :: t else (k', v') :: dict_set t k v
  end.

(** [d[k]] on a dict read as a [result]. *)
Definition dict_item {V : Type} (d : list (string * V)) (k : string) : result V :=
  match dict_get d k with
  | Some v => Ok v
  | None => Raise (KeyError k)
  end.

(** [o[k]] for a string key [k]: only a dict can be subscripted so. *)
Definition getitem {num : Type} (o : pyval num) (k : string) : result (pyval num) :=
  match o with
  | PyDict d => dict_item d k
  | _ => Raise (TypeError (type_name o))
  end.

(** [a[i]] on a sequence: negative indices count from the end. *)
Definition py_index {A : Type} (a : list A) (i : Z) : result A :=
  let n := Z.of_nat (List.length a) in
  let j := if (i <? 0)%Z then (i + n)%Z else i in
  if ((0 <=? j) && (j <? n))%Z then
    match nth_error a (Z.to_nat j) with
    | Some x => Ok x
    | None => Raise (IndexError "index out of bounds")
    end
  else Raise (IndexError "index out of bounds").

(** [a[::k]] is [slice_step k a] (for [k >= 1]): the entries at
    0, k, 2k, ...  The counter [c] is the number of entries still to skip. *)
Fixpoint slice_step_from {A : Type} (k c : nat) (a : list A) : list A :=
  match a with
  | [] => []
  | x :: t =>
      match c with
      | O => x :: slice_step_from k (k - 1)%nat t
      | S c' => slice_step_from k c' t
      end
  end.

Definition slice_step {A : Type} (k : nat) (a : list A) : list A :=
  slice_step_from k 0%nat a.

(** [a[:-n]]. *)
Definition slice_drop_last {A : Type} (n : nat) (a : list A) : list A :=
  firstn (List.length a - n)%nat a.

(** A local variable read before any assignment reached it. *)
Definition local {A : Type} (name : string) (v : option A) : result A :=
  match v with
  | Some a => Ok a
  | None => Raise (UnboundLocalError name)
  end.

(** [x is True]. *)
Definition is_True {num : Type} (v : pyval num) : bool :=
  match v with
  | PyBool true => true
  | _ => false
  end.

(** [sorted] on a list of [str]: code point order.  Equal keys are equal
    strings, so every sorting algorithm returns the same list. *)
Fixpoint insert_sorted (x : string) (l : list string) : list string :=
  match l with
  | [] => [x]
  | y :: t => if String.leb x y then x :: y :: t else y :: insert_sorted x t
  end.

Definition sorted (l : list string) : list string :=
  fold_right insert_sorted [] l.

(** [str.upper] on ASCII text. *)
Definition ascii_upper (c : ascii) : ascii :=
  let n := nat_of_ascii c in
  if (Nat.leb 97 n && Nat.leb n 122)%nat then ascii_of_nat (n - 32)%nat else c.

Fixpoint upper (s : string) : string :=
  match s with
  | EmptyString => EmptyString
  | String c t => String (ascii_upper c) (upper t)
  end.

(** [sep.join(l)] *)
Definition join (sep : string) (l : list string) : string :=
  String.concat sep l.

End Py.
Export Py.

Declare Scope result_scope.
Delimit Scope result_scope with result.
Notation "'let?' x ':=' e 'in' k" := (rbind e (fun x => k))
  (at level 10, x name, e at level 100, k at level 200) : result_scope.
Open Scope result_scope.

(* ================================================================== *)
(** * numpy arrays, as far as the script shapes them *)
(* ================================================================== *)

Module Np.

(** Arrays as nested lists, the outermost axis first. *)
Definition ndarray1 (num : Type) : Type := list num.
Definition ndarray2 (num : Type) : Type := list (list num).
Definition ndarray3 (num : Type) : Type := list (list (list num)).

Definition rectangular {A : Type} (rows : list (list A)) : bool :=
  match rows with
  | [] => true
  | r :: t => forallb (fun r' => Nat.eqb (List.length r') (List.length r)) t
  end.

(** [np.array(rows)] for a list of 1-d arrays: rows of different lengths
    have no common shape. *)
Definition array2 {A : Type} (rows : list (list A)) : result (list (list A)) :=
  if rectangular rows then Ok rows
  else Raise (ValueError "inhomogeneous shape").

Fixpoint column {A : Type} (j : nat) (rows : list (list A)) : list A :=
  match rows with
  | [] => []
  | r :: t =>
      match nth_error r j with
      | Some x => x :: column j t
      | None => column j t
      end
  end.

(** [a.T] of a 2-d array. *)
Definition transpose {A : Type} (rows : list (list A)) : list (list A) :=
  match rows with
  | [] => []
  | r :: _ => map (fun j => column j rows) (seq 0%nat (List.length r))
  end.

(** [a[np.newaxis, ...]] *)
Definition newaxis {A : Type} (a : A) : list A := [a].

End Np.
Export Np.

(* ================================================================== *)
(** * The imported libraries and the world the script runs in *)
(* ================================================================== *)

(** [dfttk.PRLStructure]: the three attributes the script reads. *)
Record PRLStructure (num : Type) : Type := {
  sublattice_configuration : pyval num;
  sublattice_occupancies : pyval num;
  sublattice_site_ratios : pyval num
}.
Arguments sublattice_configuration {num} _.
Arguments sublattice_occupancies {num} _.
Arguments sublattice_site_ratios {num} _.

(** What [get_thermal_props] returns: a dict from property name
    (['T'], ['HM'], ['SM'], ['CPM'], ...) to a 1-d array. *)
Definition ThermalProps (num : Type) : Type := list (string * ndarray1 num).

(** The keyword arguments of [get_formation_energy]: [idx=i] selects one
    temperature and gives a scalar, [thin=k] gives a 1-d array. *)
Inductive sampling : Type :=
| idx (i : Z)
| thin (k : Z).

Definition sampled (num : Type) (s : sampling) : Type :=
  match s with
  | idx _ => num
  | thin _ => ndarray1 num
  end.

(** The arguments of one call
    [make_dataset(phase_name, prop, subl_site_ratios, configurations,
                  conditions, values, occupancies=..., tag=...)]. *)
Record MakeDatasetArgs (num : Type) : Type := {
  md_phase_name : string;
  md_prop : string;
  md_subl_site_ratios : pyval num;
  md_configurations : list (pyval num);
  md_conditions : list (string * pyval num);
  md_values : ndarray3 num;
  md_occupancies : list (pyval num);
  md_tag : string
}.
Arguments md_phase_name {num} _.
Arguments md_prop {num} _.
Arguments md_subl_site_ratios {num} _.
Arguments md_configurations {num} _.
Arguments md_conditions {num} _.
Arguments md_values {num} _.
Arguments md_occupancies {num} _.
Arguments md_tag {num} _.

(** A MongoDB filter document: dotted field path and wanted value. *)
Definition Query (num : Type) : Type := list (string * pyval num).

(** The functions the script imports.  Each may raise; none of them is
    part of this repository.  [doc_matches] is the driver's decision
    whether a document satisfies a filter; [json_dump] gives the text that
    reached the file and whether the call raised. *)
Class Lib (num Structure : Type) : Type := {
  VaspCalcDb_from_db_file : string -> bool -> result unit;
  doc_matches : Query num -> pyval num -> bool;
  Structure_from_dict : pyval num -> result Structure;
  PRLStructure_from_structure : Structure -> result (PRLStructure num);
  get_thermal_props : pyval num -> result (ThermalProps num);
  get_formation_energy :
    ThermalProps num -> Structure -> list (string * ThermalProps num) ->
    string -> forall s : sampling, result (sampled num s);
  make_dataset : MakeDatasetArgs num -> result (pyval num);
  recursive_flatten : pyval num -> result (list string);
  open_w : string -> result unit;
  json_dump : pyval num -> string * result unit
}.

(** The world: the documents of each collection (by [db_file] and
    collection name; reading may raise), the files on disk, and the
    history of the calls made to [make_dataset] (kept for specification
    only: the script cannot read it). *)
Record World (num : Type) : Type := {
  w_db : string -> string -> result (list (pyval num));
  w_fs : list (string * string);
  w_calls : list (MakeDatasetArgs num)
}.
Arguments w_db {num} _.
Arguments w_fs {num} _.
Arguments w_calls {num} _.

(** Computations: they read and change the world and return or raise. *)
Definition M (num A : Type) : Type := World num -> result A * World num.

Definition ret {num A : Type} (a : A) : M num A := fun w => (Ok a, w).

Definition bind {num A B : Type} (m : M num A) (k : A -> M num B) : M num B :=
  fun w =>
    match m w with
    | (Ok a, w') => k a w'
    | (Raise e, w') => (Raise e, w')
    end.

Definition lift {num A : Type} (r : result A) : M num A := fun w => (r, w).

Declare Scope script_scope.
Delimit Scope script_scope with script.
Notation "x <- m ;; k" := (bind m (fun x => k))
  (at level 100, m at next level, right associativity) : script_scope.
Notation "' pat <- m ;; k" := (bind m (fun x => match x with pat => k end))
  (at level 100, pat pattern, m at next level, right associativity) : script_scope.
Open Scope script_scope.

(** [for x in xs: s = body(s, x)], the loop's variables being [s]. *)
Fixpoint for_each {num S X : Type} (xs : list X) (body : S -> X -> M num S) (s : S)
  : M num S :=
  match xs with
  | [] => ret s
  | x :: t => s' <- body s x ;; for_each t body s'
  end.

(** The same loop for a body that does not touch the world. *)
Fixpoint for_each_pure {S X : Type} (xs : list X) (body : S -> X -> result S) (s : S)
  : result S :=
  match xs with
  | [] => Ok s
  | x :: t => let? s' := body s x in for_each_pure t body s'
  end.

(* ================================================================== *)
(** * The script *)
(* ================================================================== *)

Section Script.

Context {num Structure : Type} {L : Lib num Structure}.

(** ** Database reads *)

(** [coll.find(q)]: the matching documents, in the collection's order. *)
Definition find (db_file collection : string) (q : Query num)
  : M num (list (pyval num)) :=
  fun w =>
    (let? docs := w_db w db_file collection in Ok (filter (doc_matches q) docs), w).

(** [coll.find_one(q)]: the first matching document, or [None]. *)
Definition find_one (db_file collection : string) (q : Query num)
  : M num (pyval num) :=
  docs <- find db_file collection q ;;
  ret (match docs with
       | [] => PyNone
       | d :: _ => d
       end).

(** ** File writes *)

Definition set_fs (w : World num) (fs : list (string * string)) : World num :=
  {| w_db := w_db w; w_fs := fs; w_calls := w_calls w |}.

Definition set_calls (w : World num) (calls : list (MakeDatasetArgs num)) : World num :=
  {| w_db := w_db w; w_fs := w_fs w; w_calls := calls |}.

(** [open(path, 'w')]: the file exists and is empty afterwards. *)
Definition fs_open_w (path : string) : M num unit :=
  fun w =>
    match open_w path with
    | Ok u => (Ok u, set_fs w (dict_set (w_fs w) path EmptyString))
    | Raise e => (Raise e, w)
    end.

(** [json.dump(ds, fp, indent=1)] on the file opened at [path]. *)
Definition fs_json_dump (ds : pyval num) (path : string) : M num unit :=
  fun w =>
    let (text, r) := json_dump ds in
    (r, set_fs w (dict_set (w_fs w) path text)).

(** A call of [make_dataset], entered in the history. *)
Definition call_make_dataset (a : MakeDatasetArgs num) : M num (pyval num) :=
  fun w => (make_dataset a, set_calls w ((w_calls w ++ [a])%list)).

(** ** [update_metadata] (lines 16-52) *)

Definition update_metadata (phase_name metadata_tag db_file collection : string)
  : M num (pyval num) :=
  _ <- lift (VaspCalcDb_from_db_file db_file true) ;;
  tag_results <- find_one db_file collection [("metadata.tag", PyStr metadata_tag)] ;;
  sd <- lift (getitem tag_results "structure") ;;
  structure <- lift (Structure_from_dict sd) ;;
  ps <- lift (PRLStructure_from_structure structure) ;;
  let subl_configuration := sublattice_configuration ps in
  let subl_occ := sublattice_occupancies ps in
  let subl_ratios := sublattice_site_ratios ps in
  let metadata_dict :=
    PyDict [("phase_name", PyStr phase_name);
            ("tag", PyStr metadata_tag);
            ("sublattice", PyDict [("configuration", subl_configuration);
                                   ("occupancies", subl_occ)])] in
  ret metadata_dict.

(** ** [dfttk_writeto_json] (lines 54-120) *)

(** Lines 82-84.  The loop's variables: [refstate_energies] and [tag]
    ([tag] is unbound until the first iteration). *)
Definition refstate_body (db_file collection : string)
  (s : list (string * ThermalProps num) * option string) (item : string * string)
  : M num (list (string * ThermalProps num) * option string) :=
  let refstate_energies := fst s in
  let el := fst item in
  let tag := snd item in
  qha_result <- find_one db_file collection [("metadata.tag", PyStr tag)] ;;
  tp <- lift (get_thermal_props qha_result) ;;
  ret (dict_set refstate_energies el tp, Some tag).

(** The variables of the loop of lines 92-104. *)
Record QhaVars : Type := {
  configs : list (pyval num);
  occupancies : list (pyval num);
  hm_values : list num;
  sm_values : list num;
  cpm_values : list (ndarray1 num);
  fixed_temp : option num;
  cpm_temps : option (ndarray1 num)
}.

(** Lines 85-89; [fixed_temp] and [cpm_temps] are unbound. *)
Definition qha_init : QhaVars :=
  {| configs := []; occupancies := []; hm_values := []; sm_values := [];
     cpm_values := []; fixed_temp := None; cpm_temps := None |}.

(** Lines 93-104. *)
Definition qha_body (refstate_energies : list (string * ThermalProps num))
  (temperature_index : Z) (v : QhaVars) (qha_res : pyval num) : result QhaVars :=
  let? md := getitem qha_res "metadata" in
  let? sl := getitem md "sublattice" in
  let? c := getitem sl "configuration" in
  let configs' := (configs v ++ [c])%list in
  let? md := getitem qha_res "metadata" in
  let? sl := getitem md "sublattice" in
  let? o := getitem sl "occupancies" in
  let occupancies' := (occupancies v ++ [o])%list in
  let? tprops := get_thermal_props qha_res in
  let? sd := getitem qha_res "structure" in
  let? struct := Structure_from_dict sd in
  let? hm_form :=
    get_formation_energy tprops struct refstate_energies "HM" (idx temperature_index) in
  let? sm_form :=
    get_formation_energy tprops struct refstate_energies "SM" (idx temperature_index) in
  let? cpm_all :=
    get_formation_energy tprops struct refstate_energies "CPM" (thin 10) in
  let cpm_form := slice_drop_last 2 cpm_all in
  let? T := dict_item tprops "T" in
  let? fixed_temp' := py_index T temperature_index in
  let? T := dict_item tprops "T" in
  let cpm_temps' := slice_drop_last 2 (slice_step 10 T) in
  Ok {| configs := configs';
        occupancies := occupancies';
        hm_values := (hm_values v ++ [hm_form])%list;
        sm_values := (sm_values v ++ [sm_form])%list;
        cpm_values := (cpm_values v ++ [cpm_form])%list;
        fixed_temp := Some fixed_temp';
        cpm_temps := Some cpm_temps' |}.

(** Line 115.  The loop's variables after an iteration: [ds] and [prop]. *)
Definition dataset_body (phase_name : string) (sublattice_site_ratios : pyval num)
  (configs occupancies : list (pyval num)) (tag : option string)
  (s : option (pyval num) * option string)
  (item : string * ndarray3 num * list (string * pyval num))
  : M num (option (pyval num) * option string) :=
  let '(prop, vals, conds) := item in
  tag' <- lift (local "tag" tag) ;;
  ds <- call_make_dataset
          {| md_phase_name := phase_name;
             md_prop := prop;
             md_subl_site_ratios := sublattice_site_ratios;
             md_configurations := configs;
             md_conditions := conds;
             md_values := vals;
             md_occupancies := occupancies;
             md_tag := tag' |} ;;
  ret (Some ds, Some prop).

(** ['{}-{}-{}-DFTTK.json'.format(a, b, c)] *)
Definition format_filename (a b c : string) : string :=
  a ++ "-" ++ b ++ "-" ++ c ++ "-DFTTK.json".

(** Lines 114-120: the three [make_dataset] calls, of which [ds] and
    [prop] keep the last, then the file or the return value. *)
Definition emit_datasets (phase_name : string) (sublattice_site_ratios : pyval num)
  (configs occupancies : list (pyval num)) (tag : option string)
  (hm_values sm_values cpm_values : ndarray3 num)
  (fixed_conds temp_conds : list (string * pyval num))
  (comps : list string) (writefile : pyval num) : M num (pyval num) :=
  dp <- for_each [("HM_FORM", hm_values, fixed_conds);
                  ("SM_FORM", sm_values, fixed_conds);
                  ("CPM_FORM", cpm_values, temp_conds)]
          (dataset_body phase_name sublattice_site_ratios configs occupancies tag)
          (None, None) ;;
  let ds := fst dp in
  let prop := snd dp in
  if is_True writefile then
    prop' <- lift (local "prop" prop) ;;
    let path := format_filename (join "-" comps) phase_name prop' in
    _ <- fs_open_w path ;;
    ds' <- lift (local "ds" ds) ;;
    _ <- fs_json_dump ds' path ;;
    ret PyNone
  else
    ds' <- lift (local "ds" ds) ;;
    ret ds'.

(** Lines 79-113, then [emit_datasets]. *)
Definition dfttk_writeto_json (phase_name : string)
  (refstate_tags : list (string * string))
  (configuration_to_find sublattice_site_ratios : pyval num)
  (db_file collection : string) (temperature_index : Z) (writefile : pyval num)
  : M num (pyval num) :=
  _ <- lift (VaspCalcDb_from_db_file db_file true) ;;
  rs <- for_each refstate_tags (refstate_body db_file collection) ([], None) ;;
  let refstate_energies := fst rs in
  let tag := snd rs in
  let fixed_conds := [("P", PyInt 101325); ("T", PyInt 0)] in
  let temp_conds := [("P", PyInt 101325); ("T", PyInt 0)] in
  docs <- find db_file collection
            [("metadata.sublattice.configuration", configuration_to_find);
             ("metadata.phase_name", PyStr phase_name)] ;;
  v <- lift (for_each_pure docs (qha_body refstate_energies temperature_index) qha_init) ;;
  ft <- lift (local "fixed_temp" (fixed_temp v)) ;;
  let fixed_conds := dict_set fixed_conds "T" (PyFloat ft) in
  ct <- lift (local "cpm_temps" (cpm_temps v)) ;;
  let temp_conds := dict_set temp_conds "T" (PyList (map PyFloat ct)) in
  let hm_values' := [[hm_values v]] in
  let sm_values' := [[sm_values v]] in
  cpm_array <- lift (array2 (cpm_values v)) ;;
  let cpm_values' := newaxis (transpose cpm_array) in
  flat <- lift (recursive_flatten configuration_to_find) ;;
  let comps := map upper (sorted flat) in
  emit_datasets phase_name sublattice_site_ratios (configs v) (occupancies v) tag
    hm_values' sm_values' cpm_values' fixed_conds temp_conds comps writefile.

End Script.

Arguments QhaVars num : clear implicits.

(* ================================================================== *)
(** * A small library instance and database, to run the script on *)
(* ================================================================== *)

Module Demo.

(** Numbers are integers here; a structure is its own dict. *)
Definition value : Type := pyval Z.

Fixpoint pyval_eqb (a b : value) {struct a} : bool :=
  match a, b with
  | PyNone, PyNone => true
  | PyBool x, PyBool y => Bool.eqb x y
  | PyInt x, PyInt y => Z.eqb x y
  | PyFloat x, PyFloat y => Z.eqb x y
  | PyStr x, PyStr y => String.eqb x y
  | PyList x, PyList y =>
      (fix all2 (x y : list value) {struct x} : bool :=
         match x, y with
         | [], [] => true
         | a' :: x', b' :: y' => pyval_eqb a' b' && all2 x' y'
         | _, _ => false
         end) x y
  | PyDict x, PyDict y =>
      (fix all2 (x y : list (string * value)) {struct x} : bool :=
         match x, y with
         | [], [] => true
         | (k, a') :: x', (k', b') :: y' =>
             String.eqb k k' && pyval_eqb a' b' && all2 x' y'
         | _, _ => false
         end) x y
  | _, _ => false
  end.

(** ["a.b.c"] to [["a"; "b"; "c"]]. *)
Fixpoint split_path (s acc : string) : list string :=
  match s with
  | EmptyString => [acc]
  | String c t =>
      if Ascii.eqb c "."%char then acc :: split_path t EmptyString
      else split_path t (acc ++ String c EmptyString)
  end.

Fixpoint lookup_path (path : list string) (d : value) : option value :=
  match path with
  | [] => Some d
  | k :: rest =>
      match d with
      | PyDict kv =>
          match dict_get kv k with
          | Some v => lookup_path rest v
          | None => None
          end
      | _ => None
      end
  end.

(** A document satisfies a filter when every dotted field is present and
    equal to the wanted value. *)
Definition eq_matches (q : Query Z) (d : value) : bool :=
  forallb (fun kv =>
             match lookup_path (split_path (fst kv) EmptyString) d with
             | Some v => pyval_eqb v (snd kv)
             | None => false
             end) q.

Fixpoint floats (l : list value) : result (list Z) :=
  match l with
  | [] => Ok []
  | PyFloat x :: t => let? r := floats t in Ok (x :: r)
  | v :: _ => Raise (TypeError (type_name v))
  end.

Definition float_array (d : value) (k : string) : result (list Z) :=
  let? a := getitem d k in
  match a with
  | PyList l => floats l
  | _ => Raise (TypeError (type_name a))
  end.

Definition thermal_props (d : value) : result (ThermalProps Z) :=
  let? t := float_array d "temperatures" in
  let? h := float_array d "enthalpy" in
  let? s := float_array d "entropy" in
  let? c := float_array d "heat_capacity" in
  Ok [("T", t); ("HM", h); ("SM", s); ("CPM", c)].

(** The value of a property minus the reference elements' values. *)
Definition ref_shift (refs : list (string * ThermalProps Z)) (prop : string) (i : Z) : Z :=
  fold_right (fun r acc =>
                match dict_get (snd r) prop with
                | Some a => match py_index a i with Ok x => (acc + x)%Z | Raise _ => acc end
                | None => acc
                end) 0%Z refs.

Definition formation_energy (tp : ThermalProps Z) (st : value)
  (refs : list (string * ThermalProps Z)) (prop : string) (s : sampling)
  : result (sampled Z s) :=
  match s return result (sampled Z s) with
  | idx i =>
      let? a := dict_item tp prop in
      let? x := py_index a i in
      Ok (x - ref_shift refs prop i)%Z
  | thin k =>
      let? a := dict_item tp prop in
      Ok (slice_step (Z.to_nat k) (map (fun x => (x - ref_shift refs prop 0)%Z) a))
  end.

Definition nested (vals : ndarray3 Z) : value :=
  PyList (map (fun a => PyList (map (fun b => PyList (map PyFloat b)) a)) vals).

Definition dataset (a : MakeDatasetArgs Z) : result value :=
  Ok (PyDict [("phases", PyList [PyStr (md_phase_name a)]);
              ("conditions", PyDict (md_conditions a));
              ("solver", PyDict [("mode", PyStr "manual");
                                 ("sublattice_site_ratios", md_subl_site_ratios a);
                                 ("sublattice_configurations", PyList (md_configurations a));
                                 ("sublattice_occupancies", PyList (md_occupancies a))]);
              ("output", PyStr (md_prop a));
              ("values", nested (md_values a));
              ("tag", PyStr (md_tag a))]).

Fixpoint flatten (fuel : nat) (v : value) : result (list string) :=
  match fuel with
  | O => Raise (LibraryError "RecursionError" "flatten")
  | S f =>
      match v with
      | PyStr s => Ok [s]
      | PyList l =>
          fold_right (fun x acc => let? a := flatten f x in
                                   let? b := acc in Ok (a ++ b)%list) (Ok []) l
      | _ => Raise (TypeError (type_name v))
      end
  end.

(** The text of a dataset: its output property and its tag are enough to
    tell the datasets of a run apart. *)
Definition dump (ds : value) : string * result unit :=
  match getitem ds "output", getitem ds "tag" with
  | Ok (PyStr p), Ok (PyStr t) => ("{output: " ++ p ++ ", tag: " ++ t ++ "}", Ok tt)
  | _, _ => (EmptyString, Raise (TypeError "not serializable"))
  end.

Definition lib : Lib Z value := {|
  VaspCalcDb_from_db_file := fun f _ =>
    if String.eqb f "db.json" then Ok tt
    else Raise (LibraryError "FileNotFoundError" f);
  doc_matches := eq_matches;
  Structure_from_dict := fun d => Ok d;
  PRLStructure_from_structure := fun st =>
    let? c := getitem st "configuration" in
    let? o := getitem st "occupancies" in
    let? r := getitem st "site_ratios" in
    Ok {| sublattice_configuration := c;
          sublattice_occupancies := o;
          sublattice_site_ratios := r |};
  get_thermal_props := thermal_props;
  get_formation_energy := formation_energy;
  make_dataset := dataset;
  recursive_flatten := flatten 8;
  open_w := fun path =>
    if String.eqb path EmptyString then Raise (LibraryError "FileNotFoundError" path)
    else Ok tt;
  json_dump := dump
|}.

(** Temperatures 0, 10, ..., 400 K and a property that grows with them. *)
Definition ramp (a b : Z) : value :=
  PyList (map (fun n => PyFloat (a * Z.of_nat n + b)%Z) (seq 0 41)).

Definition config_FeNi : value := PyList [PyList [PyStr "Fe"; PyStr "Ni"]].

Definition doc (tag phase : string) (config occ : value) (a : Z) : value :=
  PyDict [("metadata", PyDict [("tag", PyStr tag);
                               ("phase_name", PyStr phase);
                               ("sublattice", PyDict [("configuration", config);
                                                      ("occupancies", occ)])]);
          ("structure", PyDict [("configuration", config);
                                ("occupancies", occ);
                                ("site_ratios", PyList [PyFloat 1%Z])]);
          ("temperatures", ramp 10 0);
          ("enthalpy", ramp a 5);
          ("entropy", ramp a 7);
          ("heat_capacity", ramp a 9)].

Definition docs : list value :=
  [doc "ref-fe" "BCC_A2" (PyList [PyList [PyStr "Fe"]]) (PyList [PyList [PyFloat 1%Z]]) 1;
   doc "fcc-1" "FCC_A1" config_FeNi (PyList [PyList [PyFloat 1%Z; PyFloat 3%Z]]) 4;
   doc "ref-ni" "FCC_A1" (PyList [PyList [PyStr "Ni"]]) (PyList [PyList [PyFloat 1%Z]]) 2;
   doc "fcc-2" "FCC_A1" config_FeNi (PyList [PyList [PyFloat 2%Z; PyFloat 2%Z]]) 6].

Definition world : World Z := {|
  w_db := fun db_file collection =>
    if String.eqb collection "qha" then Ok docs else Ok [];
  w_fs := [];
  w_calls := []
|}.

Definition refstate_tags : list (string * string) :=
  [("Fe", "ref-fe"); ("Ni", "ref-ni")].

(** [dfttk_writeto_json('FCC_A1', refstate_tags, [['Fe', 'Ni']], [1.0],
                        'db.json', 'qha', 30, writefile)] *)
Definition run (writefile : value) : result value * World Z :=
  dfttk_writeto_json (L := lib) "FCC_A1" refstate_tags config_FeNi
    (PyList [PyFloat 1%Z]) "db.json" "qha" 30 writefile world.

End Demo.

(* ================================================================== *)
(** * Vocabulary of the specification *)
(* ================================================================== *)

Section Vocabulary.

Context {num Structure : Type} {L : Lib num Structure}.

(** The filter of lines 38 and 83. *)
Definition tag_query (tag : string) : Query num :=
  [("metadata.tag", PyStr tag)].

(** The filter of line 92. *)
Definition config_query (configuration_to_find : pyval num) (phase_name : string)
  : Query num :=
  [("metadata.sublattice.configuration", configuration_to_find);
   ("metadata.phase_name", PyStr phase_name)].

(** What [find_one] returns on the documents [docs]. *)
Definition first_match (q : Query num) (docs : list (pyval num)) : pyval num :=
  match filter (doc_matches q) docs with
  | [] => PyNone
  | d :: _ => d
  end.

(** [d['metadata']['sublattice'][field]] *)
Definition sublattice_field (d : pyval num) (field : string) : result (pyval num) :=
  let? md := getitem d "metadata" in
  let? sl := getitem md "sublattice" in
  getitem sl field.

(** One iteration of lines 82-84 when the collection reads as [dbr]. *)
Definition refstate_step (dbr : result (list (pyval num)))
  (s : list (string * ThermalProps num) * option string) (item : string * string)
  : result (list (string * ThermalProps num) * option string) :=
  let? docs := dbr in
  let? tp := get_thermal_props (first_match (tag_query (snd item)) docs) in
  Ok (dict_set (fst s) (fst item) tp, Some (snd item)).

(** What one matching record contributes to the loop of lines 92-104. *)
Record Row : Type := {
  r_config : pyval num;
  r_occ : pyval num;
  r_hm : num;
  r_sm : num;
  r_cpm : ndarray1 num;
  r_fixed_temp : num;
  r_cpm_temps : ndarray1 num
}.

(** [qha_row refs i d r]: on the record [d], with the reference energies
    [refs] and the temperature index [i], every call of lines 93-101
    returns, and [r] holds what they return. *)
Definition qha_row (refs : list (string * ThermalProps num)) (i : Z)
  (d : pyval num) (r : Row) : Prop :=
  sublattice_field d "configuration" = Ok (r_config r) /\
  sublattice_field d "occupancies" = Ok (r_occ r) /\
  exists tprops sd struct cpm_all T,
    get_thermal_props d = Ok tprops /\
    getitem d "structure" = Ok sd /\
    Structure_from_dict sd = Ok struct /\
    get_formation_energy tprops struct refs "HM" (idx i) = Ok (r_hm r) /\
    get_formation_energy tprops struct refs "SM" (idx i) = Ok (r_sm r) /\
    get_formation_energy tprops struct refs "CPM" (thin 10) = Ok cpm_all /\
    r_cpm r = slice_drop_last 2 cpm_all /\
    dict_item tprops "T" = Ok T /\
    py_index T i = Ok (r_fixed_temp r) /\
    r_cpm_temps r = slice_drop_last 2 (slice_step 10 T).

(** The loop variables after the rows [rows] were appended to [v]. *)
Definition push_rows (v : QhaVars num) (rows : list Row) : QhaVars num :=
  {| configs := (configs v ++ map r_config rows)%list;
     occupancies := (occupancies v ++ map r_occ rows)%list;
     hm_values := (hm_values v ++ map r_hm rows)%list;
     sm_values := (sm_values v ++ map r_sm rows)%list;
     cpm_values := (cpm_values v ++ map r_cpm rows)%list;
     fixed_temp := last (map (fun r => Some (r_fixed_temp r)) rows) (fixed_temp v);
     cpm_temps := last (map (fun r => Some (r_cpm_temps r)) rows) (cpm_temps v) |}.

(** The condition dicts of lines 90-91 after lines 105-106. *)
Definition fixed_conds_of (ft : num) : list (string * pyval num) :=
  [("P", PyInt 101325); ("T", PyFloat ft)].

Definition temp_conds_of (ct : ndarray1 num) : list (string * pyval num) :=
  [("P", PyInt 101325); ("T", PyList (map PyFloat ct))].

(** The arguments of the call of line 115 for one entry of the list of
    line 114. *)
Definition call_args (phase_name : string) (sublattice_site_ratios : pyval num)
  (configs occupancies : list (pyval num)) (tag : string)
  (item : string * ndarray3 num * list (string * pyval num)) : MakeDatasetArgs num :=
  {| md_phase_name := phase_name;
     md_prop := fst (fst item);
     md_subl_site_ratios := sublattice_site_ratios;
     md_configurations := configs;
     md_conditions := snd item;
     md_values := snd (fst item);
     md_occupancies := occupancies;
     md_tag := tag |}.

(** The arguments of the three calls of line 115, in order, when the
    matching records gave the rows [rows], the last of them the
    temperatures [ft] and [ct]. *)
Definition planned_calls (phase_name : string) (sublattice_site_ratios : pyval num)
  (rows : list Row) (ft : num) (ct : ndarray1 num) (tag : string)
  : list (MakeDatasetArgs num) :=
  map (call_args phase_name sublattice_site_ratios
         (map r_config rows) (map r_occ rows) tag)
      [("HM_FORM", [[map r_hm rows]], fixed_conds_of ft);
       ("SM_FORM", [[map r_sm rows]], fixed_conds_of ft);
       ("CPM_FORM", [transpose (map r_cpm rows)], temp_conds_of ct)].

(** The world after the calls [l] were entered in the history. *)
Definition log (w : World num) (l : list (MakeDatasetArgs num)) : World num :=
  set_calls w (w_calls w ++ l)%list.

(** Lines 117-118 for the dataset [ds] and the path [path]. *)
Definition write_file (path : string) (ds : pyval num) : M num (pyval num) :=
  _ <- fs_open_w path ;;
  _ <- fs_json_dump ds path ;;
  ret PyNone.

(** The path of the file of line 117. *)
Definition dataset_path (flat : list string) (phase_name prop : string) : string :=
  format_filename (join "-" (map upper (sorted flat))) phase_name prop.

End Vocabulary.

Arguments Row num : clear implicits.

(** [raises_or e r1 r2]: [r2] is [r1], or it is the exception [e]. *)
Definition raises_or {A : Type} (e : exn) (r1 r2 : result A) : Prop :=
  r2 = Raise e \/ r2 = r1.

(** [more_failures e L1 L2]: the library [L2] is [L1] with some calls
    made to raise [e]; the filter semantics is the same. *)
Record more_failures {num Structure : Type} (e : exn) (L1 L2 : Lib num Structure)
  : Prop := {
  mf_from_db_file : forall f a,
    raises_or e (VaspCalcDb_from_db_file (Lib := L1) f a)
                (VaspCalcDb_from_db_file (Lib := L2) f a);
  mf_doc_matches : forall q d,
    doc_matches (Lib := L2) q d = doc_matches (Lib := L1) q d;
  mf_from_dict : forall d,
    raises_or e (Structure_from_dict (Lib := L1) d) (Structure_from_dict (Lib := L2) d);
  mf_from_structure : forall s,
    raises_or e (PRLStructure_from_structure (Lib := L1) s)
                (PRLStructure_from_structure (Lib := L2) s);
  mf_thermal_props : forall d,
    raises_or e (get_thermal_props (Lib := L1) d) (get_thermal_props (Lib := L2) d);
  mf_formation_energy : forall tp st refs prop s,
    raises_or e (get_formation_energy (Lib := L1) tp st refs prop s)
                (get_formation_energy (Lib := L2) tp st refs prop s);
  mf_make_dataset : forall a,
    raises_or e (make_dataset (Lib := L1) a) (make_dataset (Lib := L2) a);
  mf_recursive_flatten : forall v,
    raises_or e (recursive_flatten (Lib := L1) v) (recursive_flatten (Lib := L2) v);
  mf_open_w : forall p,
    raises_or e (open_w (Lib := L1) p) (open_w (Lib := L2) p);
  mf_json_dump : forall ds,
    raises_or e (snd (json_dump (Lib := L1) ds)) (snd (json_dump (Lib := L2) ds))
}.

(** The same for the database: some reads of [w2] raise [e] instead. *)
Definition db_more_failures {num : Type} (e : exn) (w1 w2 : World num) : Prop :=
  forall f c, raises_or e (w_db w1 f c) (w_db w2 f c).

(** Two computations, the second under more failures: from related
    worlds, the second raises [e] or returns what the first returns. *)
Definition sim {num A : Type} (e : exn) (m1 m2 : M num A) : Prop :=
  forall w1 w2, db_more_failures e w1 w2 ->
    fst (m2 w2) = Raise e \/
    (fst (m2 w2) = fst (m1 w1) /\ db_more_failures e (snd (m1 w1)) (snd (m2 w2))).

(* ================================================================== *)
(** * The built-in operations behave as in Python *)
(* ================================================================== *)

Section BuiltIns.

Example py_index_from_the_end : py_index [10; 20; 30]%Z (-1) = Ok 30%Z.
Proof. reflexivity. Qed.

Example py_index_out_of_range :
  py_index [10; 20; 30]%Z 3 = Raise (IndexError "index out of bounds").
Proof. reflexivity. Qed.

Example slice_every_tenth :
  slice_step 10 (seq 0 41) = [0; 10; 20; 30; 40]%nat.
Proof. reflexivity. Qed.

Example slice_without_last_two :
  slice_drop_last 2 [0; 10; 20; 30; 40]%nat = [0; 10; 20]%nat /\
  slice_drop_last 2 [7]%nat = [].
Proof. split; reflexivity. Qed.

Example comps_of_a_configuration :
  join "-" (map upper (sorted ["Ni"; "Fe"; "Al"])) = "AL-FE-NI".
Proof. reflexivity. Qed.

Example transpose_two_by_three :
  transpose [[1; 2; 3]; [4; 5; 6]]%nat = [[1; 4]; [2; 5]; [3; 6]]%nat.
Proof. reflexivity. Qed.

Example getitem_of_None :
  getitem (num := Z) PyNone "structure" = Raise (TypeError "NoneType").
Proof. reflexivity. Qed.

Lemma insert_sorted_perm (x : string) (l : list string) :
  Permutation (x :: l) (insert_sorted x l).
Proof.
  induction l as [|y l IH]; simpl; [apply Permutation_refl|].
  destruct (String.leb x y); [apply Permutation_refl|].
  eapply perm_trans; [apply perm_swap | apply perm_skip; exact IH].
Qed.

(** [sorted] returns its argument rearranged. *)
Lemma sorted_perm (l : list string) : Permutation l (sorted l).
Proof.
  induction l as [|x l IH]; simpl; [constructor|].
  eapply perm_trans; [apply perm_skip; exact IH | apply insert_sorted_perm].
Qed.

Lemma insert_sorted_ordered (x : string) (l : list string) :
  Sorted (fun a b => String.leb a b = true) l ->
  Sorted (fun a b => String.leb a b = true) (insert_sorted x l).
Proof.
  induction l as [|y l IH]; intros H; simpl.
  - repeat constructor.
  - destruct (String.leb x y) eqn:E.
    + constructor; [exact H | constructor; exact E].
    + inversion H as [|? ? Hs Hhd]; subst.
      constructor; [apply IH; exact Hs|].
      assert (Hyx : String.leb y x = true).
      { destruct (String.leb_total x y) as [Hxy | Hyx]; [congruence | exact Hyx]. }
      destruct l as [|z l]; simpl.
      * constructor. exact Hyx.
      * destruct (String.leb x z); constructor; [exact Hyx|].
        inversion Hhd; assumption.
Qed.

(** [sorted] returns a list in ascending order. *)
Lemma sorted_ordered (l : list string) :
  Sorted (fun a b => String.leb a b = true) (sorted l).
Proof.
  induction l as [|x l IH]; simpl; [constructor|].
  apply insert_sorted_ordered. exact IH.
Qed.

End BuiltIns.

(* ================================================================== *)
(** * Running the script: general lemmas *)
(* ================================================================== *)

Section Running.

Context {num Structure : Type} {L : Lib num Structure}.

Lemma bind_lift {A B : Type} (r : result A) (k : A -> M num B) (w : World num) :
  bind (lift r) k w =
  match r with
  | Ok a => k a w
  | Raise e => (Raise e, w)
  end.
Proof. unfold bind, lift. destruct r; reflexivity. Qed.

Lemma bind_ret {A B : Type} (a : A) (k : A -> M num B) (w : World num) :
  bind (ret a) k w = k a w.
Proof. reflexivity. Qed.

Lemma find_one_eq (db_file collection : string) (q : Query num) (w : World num) :
  find_one db_file collection q w =
  (let? docs := w_db w db_file collection in Ok (first_match q docs), w).
Proof.
  unfold find_one, find, bind, first_match.
  destruct (w_db w db_file collection); reflexivity.
Qed.

Lemma refstate_body_eq (db_file collection : string) s item (w : World num) :
  refstate_body db_file collection s item w =
  (refstate_step (w_db w db_file collection) s item, w).
Proof.
  unfold refstate_body, refstate_step, tag_query.
  unfold bind at 1. rewrite find_one_eq.
  destruct (w_db w db_file collection) as [docs|e]; simpl; [|reflexivity].
  rewrite bind_lift.
  destruct (get_thermal_props _); reflexivity.
Qed.

Lemma refstate_loop_eq (db_file collection : string) (tags : list (string * string))
  s (w : World num) :
  for_each tags (refstate_body db_file collection) s w =
  (for_each_pure tags (refstate_step (w_db w db_file collection)) s, w).
Proof.
  revert s. induction tags as [|item tags IH]; intros s; simpl.
  - reflexivity.
  - unfold bind. rewrite refstate_body_eq.
    destruct (refstate_step _ s item) as [s'|e]; simpl; [apply IH | reflexivity].
Qed.

Lemma last_cons {A : Type} (x d : A) (l : list A) : last (x :: l) d = last l x.
Proof.
  revert x d. induction l as [|y l IH]; intros x d; [reflexivity|].
  change (last (x :: y :: l) d) with (last (y :: l) d).
  rewrite (IH y d), (IH y x). reflexivity.
Qed.

(** The loop of lines 82-84 leaves [tag] at the last value iterated. *)
Lemma refstate_loop_tag (dbr : result (list (pyval num)))
  (tags : list (string * string)) s refs tag :
  for_each_pure tags (refstate_step dbr) s = Ok (refs, tag) ->
  tag = last (map (fun item => Some (snd item)) tags) (snd s).
Proof.
  revert s. induction tags as [|item tags IH]; intros s H; simpl in H.
  - inversion H; subst. reflexivity.
  - destruct (refstate_step dbr s item) as [s'|e] eqn:E; simpl in H; [|discriminate].
    apply IH in H.
    assert (Hs : snd s' = Some (snd item)).
    { unfold refstate_step in E.
      destruct dbr as [docs|e]; simpl in E; [|discriminate].
      destruct (get_thermal_props _); simpl in E; [|discriminate].
      inversion E; reflexivity. }
    rewrite Hs in H. simpl map. rewrite last_cons. exact H.
Qed.

Lemma push_rows_nil (v : QhaVars num) : push_rows v [] = v.
Proof.
  destruct v; unfold push_rows; simpl. rewrite !app_nil_r. reflexivity.
Qed.

Lemma push_rows_cons (v : QhaVars num) (r : Row num) (rows : list (Row num)) :
  push_rows (push_rows v [r]) rows = push_rows v (r :: rows).
Proof.
  unfold push_rows. simpl map. rewrite !last_cons. simpl.
  rewrite <- !app_assoc. reflexivity.
Qed.

(** One iteration of lines 93-104 returns exactly when the record
    yields a row, which it then appends. *)
Lemma qha_body_ok refs i (v : QhaVars num) (d : pyval num) (r : Row num) :
  qha_row refs i d r -> qha_body refs i v d = Ok (push_rows v [r]).
Proof.
  intros (Hc & Ho & tp & sd & st & cpm_all & T & Htp & Hsd & Hst & Hhm & Hsm & Hcpm
          & Hr & HT & Hft & Hct).
  unfold sublattice_field in Hc, Ho. unfold qha_body.
  destruct (getitem d "metadata") as [md|]; simpl in *; [|discriminate].
  destruct (getitem md "sublattice") as [sl|]; simpl in *; [|discriminate].
  rewrite Hc, Ho; simpl. rewrite Htp; simpl. rewrite Hsd; simpl. rewrite Hst; simpl.
  rewrite Hhm; simpl. rewrite Hsm; simpl. rewrite Hcpm; simpl.
  rewrite HT; simpl. rewrite Hft; simpl.
  unfold push_rows; simpl. rewrite Hr, Hct. reflexivity.
Qed.

Lemma qha_body_inv refs i (v v' : QhaVars num) (d : pyval num) :
  qha_body refs i v d = Ok v' ->
  exists r, qha_row refs i d r /\ v' = push_rows v [r].
Proof.
  unfold qha_body. intros H.
  destruct (getitem d "metadata") as [md|] eqn:Hmd; simpl in H; [|discriminate].
  destruct (getitem md "sublattice") as [sl|] eqn:Hsl; simpl in H; [|discriminate].
  destruct (getitem sl "configuration") as [c|] eqn:Hc; simpl in H; [|discriminate].
  destruct (getitem sl "occupancies") as [o|] eqn:Ho; simpl in H; [|discriminate].
  destruct (get_thermal_props d) as [tp|] eqn:Htp; simpl in H; [|discriminate].
  destruct (getitem d "structure") as [sd|] eqn:Hsd; simpl in H; [|discriminate].
  destruct (Structure_from_dict sd) as [st|] eqn:Hst; simpl in H; [|discriminate].
  destruct (get_formation_energy tp st refs "HM" (idx i)) as [hm|] eqn:Hhm;
    simpl in H; [|discriminate].
  destruct (get_formation_energy tp st refs "SM" (idx i)) as [sm|] eqn:Hsm;
    simpl in H; [|discriminate].
  destruct (get_formation_energy tp st refs "CPM" (thin 10)) as [cpm_all|] eqn:Hcpm;
    simpl in H; [|discriminate].
  destruct (dict_item tp "T") as [T|] eqn:HT; simpl in H; [|discriminate].
  destruct (py_index T i) as [ft|] eqn:Hft; simpl in H; [|discriminate].
  inversion H; subst; clear H.
  exists {| r_config := c; r_occ := o; r_hm := hm; r_sm := sm;
            r_cpm := slice_drop_last 2 cpm_all; r_fixed_temp := ft;
            r_cpm_temps := slice_drop_last 2 (slice_step 10 T) |}.
  split; [|reflexivity].
  unfold qha_row, sublattice_field; simpl.
  rewrite Hmd; simpl. rewrite Hsl; simpl.
  repeat split; try assumption.
  exists tp, sd, st, cpm_all, T. repeat split; assumption.
Qed.

(** The loop of lines 92-104 returns exactly when every record yields a
    row; the rows are appended in the order of the records. *)
Lemma qha_loop_ok refs i (docs : list (pyval num)) (rows : list (Row num)) (v : QhaVars num) :
  Forall2 (qha_row refs i) docs rows ->
  for_each_pure docs (qha_body refs i) v = Ok (push_rows v rows).
Proof.
  intros H. revert v. induction H as [|d r docs rows Hr _ IH]; intros v; simpl.
  - rewrite push_rows_nil. reflexivity.
  - rewrite (qha_body_ok _ _ _ _ _ Hr); simpl. rewrite IH. rewrite push_rows_cons.
    reflexivity.
Qed.

Lemma qha_loop_inv refs i (docs : list (pyval num)) (v v' : QhaVars num) :
  for_each_pure docs (qha_body refs i) v = Ok v' ->
  exists rows, Forall2 (qha_row refs i) docs rows /\ v' = push_rows v rows.
Proof.
  revert v. induction docs as [|d docs IH]; intros v H; simpl in H.
  - inversion H; subst. exists []. split; [constructor | symmetry; apply push_rows_nil].
  - destruct (qha_body refs i v d) as [v1|] eqn:E; simpl in H; [|discriminate].
    apply qha_body_inv in E. destruct E as (r & Hr & ->).
    apply IH in H. destruct H as (rows & Hrows & ->).
    exists (r :: rows). split; [constructor; assumption | apply push_rows_cons].
Qed.

Lemma log_log (w : World num) (l1 l2 : list (MakeDatasetArgs num)) :
  log (log w l1) l2 = log w (l1 ++ l2)%list.
Proof. unfold log, set_calls; simpl. rewrite app_assoc. reflexivity. Qed.

Lemma log_nil (w : World num) : log w [] = w.
Proof. destruct w; unfold log, set_calls; simpl. rewrite app_nil_r. reflexivity. Qed.

(** Lines 114-120 with [tag] unbound: the first call cannot be made. *)
Lemma emit_datasets_unbound_tag phase ratios cfgs occs hm sm cpm fc tc comps wf
  (w : World num) :
  emit_datasets phase ratios cfgs occs None hm sm cpm fc tc comps wf w =
  (Raise (UnboundLocalError "tag"), w).
Proof. reflexivity. Qed.

(** Lines 114-120 with [tag] bound: the three calls are made in order,
    the first that raises ends the run, and what follows uses the third
    dataset and the third property name only. *)
Lemma emit_datasets_eq phase ratios cfgs occs t hm sm cpm fc tc comps wf
  (w : World num) :
  let a1 := call_args phase ratios cfgs occs t ("HM_FORM", hm, fc) in
  let a2 := call_args phase ratios cfgs occs t ("SM_FORM", sm, fc) in
  let a3 := call_args phase ratios cfgs occs t ("CPM_FORM", cpm, tc) in
  emit_datasets phase ratios cfgs occs (Some t) hm sm cpm fc tc comps wf w =
  match make_dataset a1 with
  | Raise e => (Raise e, log w [a1])
  | Ok _ =>
      match make_dataset a2 with
      | Raise e => (Raise e, log w [a1; a2])
      | Ok _ =>
          match make_dataset a3 with
          | Raise e => (Raise e, log w [a1; a2; a3])
          | Ok ds =>
              if is_True wf then
                write_file (format_filename (join "-" comps) phase "CPM_FORM") ds
                  (log w [a1; a2; a3])
              else (Ok ds, log w [a1; a2; a3])
          end
      end
  end.
Proof.
  intros a1 a2 a3.
  change [a1; a2] with ([a1] ++ [a2])%list.
  change [a1; a2; a3] with (([a1] ++ [a2]) ++ [a3])%list.
  rewrite <- !log_log.
  subst a1 a2 a3.
  unfold emit_datasets, for_each, dataset_body, write_file, bind, lift, ret,
    call_make_dataset, log, call_args, local; simpl.
  destruct (make_dataset _) as [d1|e]; [|reflexivity].
  destruct (make_dataset _) as [d2|e]; [|reflexivity].
  destruct (make_dataset _) as [d3|e]; [|reflexivity].
  destruct (is_True wf); reflexivity.
Qed.

Lemma last_map_snoc {A B : Type} (f : A -> B) (l : list A) (x : A) (d : B) :
  last (map f (l ++ [x])) d = f x.
Proof. rewrite map_app. simpl. apply last_last. Qed.

Lemma push_rows_init (rows0 : list (Row num)) (rl : Row num) :
  let rows := (rows0 ++ [rl])%list in
  push_rows qha_init rows =
  {| configs := map r_config rows;
     occupancies := map r_occ rows;
     hm_values := map r_hm rows;
     sm_values := map r_sm rows;
     cpm_values := map r_cpm rows;
     fixed_temp := Some (r_fixed_temp rl);
     cpm_temps := Some (r_cpm_temps rl) |}.
Proof.
  intros rows. unfold push_rows, rows. rewrite !last_map_snoc. reflexivity.
Qed.

(** Lines 79-113 when every step returns: the run continues with lines
    114-120 on the values gathered from the matching records. *)
Lemma dfttk_preamble_ok phase tags cfg ratios db coll i wf (w : World num)
  u docs refs tag rows0 rl flat :
  let rows := (rows0 ++ [rl])%list in
  VaspCalcDb_from_db_file db true = Ok u ->
  w_db w db coll = Ok docs ->
  for_each_pure tags (refstate_step (Ok docs)) ([], None) = Ok (refs, tag) ->
  Forall2 (qha_row refs i) (filter (doc_matches (config_query cfg phase)) docs) rows ->
  rectangular (map r_cpm rows) = true ->
  recursive_flatten cfg = Ok flat ->
  dfttk_writeto_json phase tags cfg ratios db coll i wf w =
  emit_datasets phase ratios (map r_config rows) (map r_occ rows) tag
    [[map r_hm rows]] [[map r_sm rows]] [transpose (map r_cpm rows)]
    (fixed_conds_of (r_fixed_temp rl)) (temp_conds_of (r_cpm_temps rl))
    (map upper (sorted flat)) wf w.
Proof.
  intros rows Hdb Hw Hrefs Hrows Hrect Hflat.
  unfold dfttk_writeto_json.
  rewrite bind_lift, Hdb.
  unfold bind at 1. rewrite refstate_loop_eq, Hw, Hrefs. cbn [fst snd].
  unfold bind at 1, find at 1. rewrite Hw. cbn [rbind].
  fold (config_query cfg phase).
  rewrite bind_lift, (qha_loop_ok _ _ _ _ _ Hrows).
  unfold rows. rewrite push_rows_init. fold rows. cbn [fixed_temp cpm_temps local].
  rewrite !bind_lift. cbn [cpm_values hm_values sm_values configs occupancies].
  unfold array2. rewrite Hrect. rewrite bind_lift, Hflat.
  reflexivity.
Qed.

(** Lines 79-113 in general: either a step raised, and the world is as
    it was, or every step returned. *)
Lemma dfttk_preamble_inv phase tags cfg ratios db coll i wf (w : World num) r w' :
  dfttk_writeto_json phase tags cfg ratios db coll i wf w = (r, w') ->
  (w' = w /\ exists e, r = Raise e) \/
  exists u docs refs tag rows0 rl flat,
    VaspCalcDb_from_db_file db true = Ok u /\
    w_db w db coll = Ok docs /\
    for_each_pure tags (refstate_step (Ok docs)) ([], None) = Ok (refs, tag) /\
    Forall2 (qha_row refs i) (filter (doc_matches (config_query cfg phase)) docs)
      (rows0 ++ [rl]) /\
    rectangular (map r_cpm (rows0 ++ [rl])) = true /\
    recursive_flatten cfg = Ok flat.
Proof.
  unfold dfttk_writeto_json. intros H.
  match goal with
  | |- ?G => assert (Hfail : forall e, (@Raise (pyval num) e, w) = (r, w') -> G)
  end.
  { intros e He. inversion He; subst. left. split; [reflexivity | eexists; reflexivity]. }
  rewrite bind_lift in H.
  destruct (VaspCalcDb_from_db_file db true) as [u|e] eqn:Hdb; [|exact (Hfail _ H)].
  unfold bind at 1 in H. rewrite refstate_loop_eq in H.
  destruct (for_each_pure tags _ _) as [[refs tag]|e] eqn:Hrefs; [|exact (Hfail _ H)].
  cbn [fst snd] in H.
  unfold bind at 1, find at 1 in H.
  destruct (w_db w db coll) as [docs|e] eqn:Hw; cbn [rbind] in H; [|exact (Hfail _ H)].
  fold (config_query cfg phase) in H.
  rewrite bind_lift in H.
  destruct (for_each_pure _ (qha_body refs i) qha_init) as [v|e] eqn:Hloop;
    [|exact (Hfail _ H)].
  apply qha_loop_inv in Hloop. destruct Hloop as (rows & Hrows & ->).
  destruct rows as [|r0 rows1] using rev_ind.
  { rewrite push_rows_nil in H. exact (Hfail _ H). }
  clear IHrows1. rename rows1 into rows0. rename r0 into rl.
  rewrite push_rows_init in H. cbn [fixed_temp cpm_temps local] in H.
  rewrite !bind_lift in H.
  cbn [cpm_values hm_values sm_values configs occupancies] in H.
  unfold array2 in H.
  destruct (rectangular (map r_cpm (rows0 ++ [rl]))) eqn:Hrect; [|exact (Hfail _ H)].
  rewrite bind_lift in H.
  destruct (recursive_flatten cfg) as [flat|e] eqn:Hflat; [|exact (Hfail _ H)].
  right. exists u, docs, refs, tag, rows0, rl, flat. repeat split; assumption.
Qed.

Lemma dict_set_set {V : Type} (d : list (string * V)) (k : string) (v v' : V) :
  dict_set (dict_set d k v) k v' = dict_set d k v'.
Proof.
  induction d as [|[k0 v0] d IH]; simpl.
  - rewrite String.eqb_refl. reflexivity.
  - destruct (String.eqb k0 k) eqn:E; simpl; rewrite E; [reflexivity|].
    rewrite IH. reflexivity.
Qed.

Lemma dict_get_set {V : Type} (d : list (string * V)) (k : string) (v : V) :
  dict_get (dict_set d k v) k = Some v.
Proof.
  induction d as [|[k0 v0] d IH]; simpl.
  - rewrite String.eqb_refl. reflexivity.
  - destruct (String.eqb k0 k) eqn:E; simpl; rewrite E; [reflexivity | exact IH].
Qed.

Lemma dict_get_set_other {V : Type} (d : list (string * V)) (k k' : string) (v : V) :
  k' <> k -> dict_get (dict_set d k v) k' = dict_get d k'.
Proof.
  intros Hk. induction d as [|[k0 v0] d IH]; simpl.
  - destruct (String.eqb_spec k k'); [congruence | reflexivity].
  - destruct (String.eqb_spec k0 k) as [->|Hne]; simpl.
    + destruct (String.eqb_spec k k'); [congruence | reflexivity].
    + destruct (String.eqb_spec k0 k'); [reflexivity | exact IH].
Qed.

(** Lines 117-118: the file is created or emptied by [open], then holds
    what [json.dump] wrote, whether or not [json.dump] raised. *)
Lemma write_file_eq (path : string) (ds : pyval num) (w : World num) :
  write_file path ds w =
  match open_w path with
  | Raise e => (Raise e, w)
  | Ok _ =>
      (match snd (json_dump ds) with
       | Ok _ => Ok PyNone
       | Raise e => Raise e
       end,
       set_fs w (dict_set (w_fs w) path (fst (json_dump ds))))
  end.
Proof.
  unfold write_file, bind, fs_open_w, fs_json_dump, ret.
  destruct (open_w path) as [u|e]; [|reflexivity].
  destruct (json_dump ds) as [text [u'|e]]; simpl; rewrite dict_set_set; reflexivity.
Qed.

Lemma write_file_frame (path : string) (ds : pyval num) (w : World num) :
  w_calls (snd (write_file path ds w)) = w_calls w /\
  w_db (snd (write_file path ds w)) = w_db w.
Proof.
  rewrite write_file_eq. destruct (open_w path); split; reflexivity.
Qed.

(** Every run: the calls it adds to the history are an initial part of
    the three planned calls, all three when the run returns. *)
Lemma dfttk_calls phase tags cfg ratios db coll i wf (w : World num) r w' :
  dfttk_writeto_json phase tags cfg ratios db coll i wf w = (r, w') ->
  exists new,
    w_calls w' = (w_calls w ++ new)%list /\
    w_db w' = w_db w /\
    (is_ok r = true -> List.length new = 3%nat) /\
    (new = [] \/
     exists u docs refs t rows0 rl flat k,
       VaspCalcDb_from_db_file db true = Ok u /\
       w_db w db coll = Ok docs /\
       for_each_pure tags (refstate_step (Ok docs)) ([], None) = Ok (refs, Some t) /\
       Forall2 (qha_row refs i) (filter (doc_matches (config_query cfg phase)) docs)
         (rows0 ++ [rl]) /\
       rectangular (map r_cpm (rows0 ++ [rl])) = true /\
       recursive_flatten cfg = Ok flat /\
       new = firstn k (planned_calls phase ratios (rows0 ++ [rl])
                         (r_fixed_temp rl) (r_cpm_temps rl) t)).
Proof.
  intros H.
  destruct (dfttk_preamble_inv _ _ _ _ _ _ _ _ _ _ _ H)
    as [(-> & e & ->) | (u & docs & refs & tag & rows0 & rl & flat & F)].
  { exists []. rewrite app_nil_r.
    split; [reflexivity | split; [reflexivity | split]];
      [intros Hx; discriminate Hx | left; reflexivity]. }
  destruct F as (Hdb & Hw & Hrefs & Hrows & Hrect & Hflat).
  rewrite (dfttk_preamble_ok _ _ _ _ _ _ _ _ _ _ _ _ _ _ _ _
             Hdb Hw Hrefs Hrows Hrect Hflat) in H.
  destruct tag as [t|].
  2:{ rewrite emit_datasets_unbound_tag in H. inversion H; subst.
      exists []. rewrite app_nil_r.
      split; [reflexivity | split; [reflexivity | split]];
        [intros Hx; discriminate Hx | left; reflexivity]. }
  rewrite emit_datasets_eq in H.
  set (planned := planned_calls phase ratios (rows0 ++ [rl])
                    (r_fixed_temp rl) (r_cpm_temps rl) t).
  assert (Hk : forall k, exists u docs refs t0 rows1 rl0 flat0 k0,
             VaspCalcDb_from_db_file db true = Ok u /\
             w_db w db coll = Ok docs /\
             for_each_pure tags (refstate_step (Ok docs)) ([], None) = Ok (refs, Some t0) /\
             Forall2 (qha_row refs i)
               (filter (doc_matches (config_query cfg phase)) docs) (rows1 ++ [rl0]) /\
             rectangular (map r_cpm (rows1 ++ [rl0])) = true /\
             recursive_flatten cfg = Ok flat0 /\
             firstn k planned =
             firstn k0 (planned_calls phase ratios (rows1 ++ [rl0])
                          (r_fixed_temp rl0) (r_cpm_temps rl0) t0)).
  { intros k. exists u, docs, refs, t, rows0, rl, flat, k.
    repeat split; assumption. }
  match type of H with
  | context [log w [?a1; ?a2; ?a3]] =>
      change [a1] with (firstn 1 planned) in H;
      change [a1; a2] with (firstn 2 planned) in H;
      change [a1; a2; a3] with (firstn 3 planned) in H
  end.
  destruct (make_dataset _) as [d1|e] in H.
  2:{ inversion H; subst. exists (firstn 1 planned).
      split; [reflexivity | split; [reflexivity | split]];
        [intros Hx; discriminate Hx | right; apply Hk]. }
  destruct (make_dataset _) as [d2|e] in H.
  2:{ inversion H; subst. exists (firstn 2 planned).
      split; [reflexivity | split; [reflexivity | split]];
        [intros Hx; discriminate Hx | right; apply Hk]. }
  destruct (make_dataset _) as [d3|e] in H.
  2:{ inversion H; subst. exists (firstn 3 planned).
      split; [reflexivity | split; [reflexivity | split]];
        [intros Hx; discriminate Hx | right; apply Hk]. }
  exists (firstn 3 planned).
  destruct (is_True wf).
  - pose proof (write_file_frame
                  (format_filename (join "-" (map upper (sorted flat))) phase "CPM_FORM")
                  d3 (log w (firstn 3 planned))) as [Hc Hd].
    rewrite H in Hc, Hd. simpl snd in Hc, Hd.
    split; [exact Hc | split; [exact Hd | split]];
      [intros _; reflexivity | right; apply Hk].
  - inversion H; subst.
    split; [reflexivity | split; [reflexivity | split]];
      [intros _; reflexivity | right; apply Hk].
Qed.

End Running.

(* ================================================================== *)
(** * [update_metadata] *)
(* ================================================================== *)

Section UpdateMetadata.

Context {num Structure : Type} {L : Lib num Structure}.

Lemma first_match_found (q : Query num) (docs : list (pyval num)) (d : pyval num) :
  In d docs -> doc_matches q d = true ->
  In (first_match q docs) docs /\ doc_matches q (first_match q docs) = true.
Proof.
  intros Hin Hm. unfold first_match.
  assert (Hf : In d (filter (doc_matches q) docs)) by (apply filter_In; auto).
  destruct (filter (doc_matches q) docs) as [|d0 rest] eqn:E; [contradiction|].
  assert (H0 : In d0 (filter (doc_matches q) docs)) by (rewrite E; left; reflexivity).
  apply filter_In in H0. exact H0.
Qed.

(** C2: when the collection holds a record whose [metadata.tag] matches
    [metadata_tag], and the library calls on the record found return,
    [update_metadata] returns the dict with ['phase_name'] the given
    phase name, ['tag'] the given tag, and under ['sublattice'] the
    configuration and occupancies that [PRLStructure] derives from the
    structure stored in the record found, which is a record of the
    collection with that tag. *)
Theorem update_metadata_returns (phase_name metadata_tag db_file collection : string)
  (w : World num) u docs d sd structure ps :
  VaspCalcDb_from_db_file db_file true = Ok u ->
  w_db w db_file collection = Ok docs ->
  In d docs -> doc_matches (tag_query metadata_tag) d = true ->
  let found := first_match (tag_query metadata_tag) docs in
  getitem found "structure" = Ok sd ->
  Structure_from_dict sd = Ok structure ->
  PRLStructure_from_structure structure = Ok ps ->
  (In found docs /\ doc_matches (tag_query metadata_tag) found = true) /\
  fst (update_metadata phase_name metadata_tag db_file collection w) =
  Ok (PyDict [("phase_name", PyStr phase_name);
              ("tag", PyStr metadata_tag);
              ("sublattice",
               PyDict [("configuration", sublattice_configuration ps);
                       ("occupancies", sublattice_occupancies ps)])]).
Proof.
  intros Hdb Hw Hin Hm found Hsd Hst Hps.
  split; [exact (first_match_found _ _ _ Hin Hm)|].
  unfold update_metadata.
  rewrite bind_lift, Hdb. unfold bind at 1. rewrite find_one_eq, Hw. cbn [rbind].
  fold (tag_query (num := num) metadata_tag). fold found.
  rewrite bind_lift, Hsd, bind_lift, Hst, bind_lift, Hps. reflexivity.
Qed.

(** C9: [update_metadata] leaves the world as it found it, the database
    included, whatever it returns or raises. *)
Theorem update_metadata_reads_only (phase_name metadata_tag db_file collection : string)
  (w : World num) :
  snd (update_metadata phase_name metadata_tag db_file collection w) = w /\
  w_db (snd (update_metadata phase_name metadata_tag db_file collection w)) = w_db w.
Proof.
  assert (H : snd (update_metadata phase_name metadata_tag db_file collection w) = w).
  { unfold update_metadata.
    rewrite bind_lift.
    destruct (VaspCalcDb_from_db_file db_file true); [|reflexivity].
    unfold bind at 1. rewrite find_one_eq.
    destruct (w_db w db_file collection); cbn [rbind]; [|reflexivity].
    rewrite bind_lift. destruct (getitem _ "structure"); [|reflexivity].
    rewrite bind_lift. destruct (Structure_from_dict _); [|reflexivity].
    rewrite bind_lift. destruct (PRLStructure_from_structure _); reflexivity. }
  rewrite H. split; reflexivity.
Qed.

End UpdateMetadata.

Lemma update_metadata_returns_witness :
  fst (update_metadata (L := Demo.lib) "FCC_A1" "fcc-2" "db.json" "qha" Demo.world) =
  Ok (PyDict [("phase_name", PyStr "FCC_A1");
              ("tag", PyStr "fcc-2");
              ("sublattice",
               PyDict [("configuration", Demo.config_FeNi);
                       ("occupancies", PyList [PyList [PyFloat 2%Z; PyFloat 2%Z]])])]).
Proof.
  refine (proj2 (update_metadata_returns (L := Demo.lib)
                   "FCC_A1" "fcc-2" "db.json" "qha" Demo.world tt Demo.docs
                   (Demo.doc "fcc-2" "FCC_A1" Demo.config_FeNi
                      (PyList [PyList [PyFloat 2%Z; PyFloat 2%Z]]) 6)
                   _ _
                   {| sublattice_configuration := Demo.config_FeNi;
                      sublattice_occupancies := PyList [PyList [PyFloat 2%Z; PyFloat 2%Z]];
                      sublattice_site_ratios := PyList [PyFloat 1%Z] |}
                   _ _ _ _ _ _ _)).
  - reflexivity.
  - reflexivity.
  - simpl. right. right. right. left. reflexivity.
  - reflexivity.
  - reflexivity.
  - reflexivity.
  - reflexivity.
Defined.

(* ================================================================== *)
(** * [dfttk_writeto_json] *)
(* ================================================================== *)

Section WriteToJson.

Context {num Structure : Type} {L : Lib num Structure}.

Lemma Forall_firstn_of {A : Type} (P : A -> Prop) (k : nat) (l : list A) :
  Forall P l -> Forall P (firstn k l).
Proof.
  intros H. revert k. induction H as [|x l Hx _ IH]; intros [|k]; simpl;
    constructor; auto.
Qed.

Lemma last_some_snd (tags : list (string * string)) :
  tags <> [] ->
  last (map (fun item => Some (snd item)) tags) None =
  Some (last (map snd tags) EmptyString).
Proof.
  intros H. destruct (exists_last H) as (l & x & ->).
  rewrite !last_map_snoc. reflexivity.
Qed.

Lemma Forall2_map_right {A B C : Type} (R : A -> B -> Prop) (Q : A -> C -> Prop)
  (f : B -> C) (l : list A) (rows : list B) :
  (forall a b, R a b -> Q a (f b)) ->
  Forall2 R l rows -> Forall2 Q l (map f rows).
Proof.
  intros HRQ H. induction H; simpl; constructor; auto.
Qed.

(** C8: when no record of the collection matches the configuration and
    the phase name, [dfttk_writeto_json] raises and leaves the world as
    it was: no dataset is built and no file is written.  When the
    connection and the reference-element loop went through, the exception
    is the unbound local [fixed_temp] of line 105. *)
Theorem no_match_raises phase_name refstate_tags configuration_to_find
  sublattice_site_ratios db_file collection temperature_index writefile
  (w : World num) docs :
  w_db w db_file collection = Ok docs ->
  filter (doc_matches (config_query configuration_to_find phase_name)) docs = [] ->
  exists e,
    dfttk_writeto_json phase_name refstate_tags configuration_to_find
      sublattice_site_ratios db_file collection temperature_index writefile w
    = (Raise e, w) /\
    (forall u rs,
        VaspCalcDb_from_db_file db_file true = Ok u ->
        for_each_pure refstate_tags (refstate_step (Ok docs)) ([], None) = Ok rs ->
        e = UnboundLocalError "fixed_temp").
Proof.
  intros Hw Hnone. unfold dfttk_writeto_json.
  rewrite bind_lift.
  destruct (VaspCalcDb_from_db_file db_file true) as [u|e].
  2:{ exists e. split; [reflexivity | intros ? ? Hx; discriminate Hx]. }
  unfold bind at 1. rewrite refstate_loop_eq, Hw.
  destruct (for_each_pure refstate_tags _ _) as [rs|e].
  2:{ exists e. split; [reflexivity | intros ? ? _ Hx; discriminate Hx]. }
  unfold bind at 1, find at 1. rewrite Hw. cbn [rbind].
  fold (config_query configuration_to_find phase_name). rewrite Hnone.
  exists (UnboundLocalError "fixed_temp"). split; reflexivity.
Qed.

(** C10: with a non-empty [refstate_tags], every call of [make_dataset]
    that a run makes receives as [tag] the tag of the last entry of
    [refstate_tags]; a run that returns makes three such calls. *)
Theorem dataset_tag_is_last_refstate_tag phase_name refstate_tags
  configuration_to_find sublattice_site_ratios db_file collection
  temperature_index writefile (w : World num) :
  refstate_tags <> [] ->
  let run := dfttk_writeto_json phase_name refstate_tags configuration_to_find
               sublattice_site_ratios db_file collection temperature_index
               writefile w in
  exists new,
    w_calls (snd run) = (w_calls w ++ new)%list /\
    Forall (fun c => md_tag c = last (map snd refstate_tags) EmptyString) new /\
    (is_ok (fst run) = true -> List.length new = 3%nat).
Proof.
  intros Hne run.
  destruct run as [r w'] eqn:Hrun. unfold run in Hrun.
  destruct (dfttk_calls _ _ _ _ _ _ _ _ _ _ _ Hrun) as (new & Hcalls & _ & Hlen & Hnew).
  exists new. split; [exact Hcalls | split; [|exact Hlen]].
  destruct Hnew as [-> | (u & docs & refs & t & rows0 & rl & flat & k & F)];
    [constructor|].
  destruct F as (_ & _ & Hrefs & _ & _ & _ & ->).
  apply refstate_loop_tag in Hrefs. simpl snd in Hrefs.
  rewrite (last_some_snd _ Hne) in Hrefs. inversion Hrefs; subst.
  apply Forall_firstn_of. unfold planned_calls.
  repeat constructor.
Qed.

(** C4: the [configurations] and [occupancies] that [make_dataset]
    receives are, entry by entry and in the order of the query, the
    [metadata.sublattice.configuration] and [metadata.sublattice
    .occupancies] of the records of the collection that match the
    configuration and the phase name: every matching record gives one
    entry and nothing else does.  A run that returns makes three such
    calls. *)
Theorem matching_records_reach_make_dataset phase_name refstate_tags
  configuration_to_find sublattice_site_ratios db_file collection
  temperature_index writefile (w : World num) docs :
  w_db w db_file collection = Ok docs ->
  let matched :=
    filter (doc_matches (config_query configuration_to_find phase_name)) docs in
  let run := dfttk_writeto_json phase_name refstate_tags configuration_to_find
               sublattice_site_ratios db_file collection temperature_index
               writefile w in
  exists new,
    w_calls (snd run) = (w_calls w ++ new)%list /\
    Forall (fun c =>
              Forall2 (fun d x => sublattice_field d "configuration" = Ok x)
                matched (md_configurations c) /\
              Forall2 (fun d x => sublattice_field d "occupancies" = Ok x)
                matched (md_occupancies c)) new /\
    (is_ok (fst run) = true -> List.length new = 3%nat).
Proof.
  intros Hw matched run.
  destruct run as [r w'] eqn:Hrun. unfold run in Hrun.
  destruct (dfttk_calls _ _ _ _ _ _ _ _ _ _ _ Hrun) as (new & Hcalls & _ & Hlen & Hnew).
  exists new. split; [exact Hcalls | split; [|exact Hlen]].
  destruct Hnew as [-> | (u & docs' & refs & t & rows0 & rl & flat & k & F)];
    [constructor|].
  destruct F as (_ & Hw' & _ & Hrows & _ & _ & ->).
  rewrite Hw in Hw'. inversion Hw'; subst docs'. fold matched in Hrows.
  assert (Hc : Forall2 (fun d x => sublattice_field d "configuration" = Ok x)
                 matched (map r_config (rows0 ++ [rl]))).
  { eapply Forall2_map_right; [|exact Hrows]. intros d r0 Hr. apply Hr. }
  assert (Ho : Forall2 (fun d x => sublattice_field d "occupancies" = Ok x)
                 matched (map r_occ (rows0 ++ [rl]))).
  { eapply Forall2_map_right; [|exact Hrows]. intros d r0 Hr. apply Hr. }
  apply Forall_firstn_of. unfold planned_calls.
  repeat constructor; assumption.
Qed.

End WriteToJson.

Lemma no_match_raises_witness :
  exists e,
    dfttk_writeto_json (L := Demo.lib) "HCP_A3" Demo.refstate_tags Demo.config_FeNi
      (PyList [PyFloat 1%Z]) "db.json" "qha" 30 (PyBool true) Demo.world
    = (Raise e, Demo.world) /\
    (forall u rs,
        VaspCalcDb_from_db_file (Lib := Demo.lib) "db.json" true = Ok u ->
        for_each_pure Demo.refstate_tags (refstate_step (L := Demo.lib) (Ok Demo.docs))
          ([], None) = Ok rs ->
        e = UnboundLocalError "fixed_temp").
Proof.
  apply (no_match_raises (L := Demo.lib) "HCP_A3" Demo.refstate_tags Demo.config_FeNi
           (PyList [PyFloat 1%Z]) "db.json" "qha" 30%Z (PyBool true) Demo.world Demo.docs).
  - reflexivity.
  - reflexivity.
Defined.

Lemma dataset_tag_is_last_refstate_tag_witness :
  exists new,
    w_calls (snd (Demo.run (PyBool true))) = (w_calls Demo.world ++ new)%list /\
    Forall (fun c => md_tag c = "ref-ni") new /\
    (is_ok (fst (Demo.run (PyBool true))) = true -> List.length new = 3%nat).
Proof.
  apply (dataset_tag_is_last_refstate_tag (L := Demo.lib) "FCC_A1" Demo.refstate_tags
           Demo.config_FeNi (PyList [PyFloat 1%Z]) "db.json" "qha" 30%Z (PyBool true)
           Demo.world).
  discriminate.
Defined.

Lemma matching_records_reach_make_dataset_witness :
  exists new,
    w_calls (snd (Demo.run (PyBool false))) = (w_calls Demo.world ++ new)%list /\
    Forall (fun c =>
              Forall2 (fun d x => sublattice_field d "configuration" = Ok x)
                (filter (Demo.eq_matches (config_query Demo.config_FeNi "FCC_A1"))
                   Demo.docs)
                (md_configurations c) /\
              Forall2 (fun d x => sublattice_field d "occupancies" = Ok x)
                (filter (Demo.eq_matches (config_query Demo.config_FeNi "FCC_A1"))
                   Demo.docs)
                (md_occupancies c)) new /\
    (is_ok (fst (Demo.run (PyBool false))) = true -> List.length new = 3%nat).
Proof.
  apply (matching_records_reach_make_dataset (L := Demo.lib) "FCC_A1"
           Demo.refstate_tags Demo.config_FeNi (PyList [PyFloat 1%Z]) "db.json" "qha"
           30%Z (PyBool false) Demo.world Demo.docs).
  reflexivity.
Defined.

(* ================================================================== *)
(** * The values and conditions of the datasets *)
(* ================================================================== *)

Section DatasetValues.

Context {num Structure : Type} {L : Lib num Structure}.

(** Lines 95-99 for one record [d] and one property:
    [get_formation_energy(get_thermal_props(d),
                          Structure.from_dict(d['structure']),
                          refstate_energies, prop, idx=... or thin=...)]. *)
Definition formation_of_record (refstate_energies : list (string * ThermalProps num))
  (d : pyval num) (prop : string) (s : sampling) : result (sampled num s) :=
  let? tprops := get_thermal_props d in
  let? sd := getitem d "structure" in
  let? struct := Structure_from_dict sd in
  get_formation_energy tprops struct refstate_energies prop s.

(** What C3 says of the values of one call [c] of [make_dataset]. *)
Definition formation_values (refstate_tags : list (string * string))
  (docs matched : list (pyval num)) (i : Z) (c : MakeDatasetArgs num) : Prop :=
  exists refstate_energies,
    (forall el tag, In (el, tag) refstate_tags ->
       exists tp,
         get_thermal_props (first_match (tag_query tag) docs) = Ok tp /\
         dict_get refstate_energies el = Some tp) /\
    ((md_prop c = "HM_FORM" /\
      exists hm, md_values c = [[hm]] /\
        Forall2 (fun d x => formation_of_record refstate_energies d "HM" (idx i) = Ok x)
          matched hm) \/
     (md_prop c = "SM_FORM" /\
      exists sm, md_values c = [[sm]] /\
        Forall2 (fun d x => formation_of_record refstate_energies d "SM" (idx i) = Ok x)
          matched sm) \/
     (md_prop c = "CPM_FORM" /\
      exists cpm, md_values c = newaxis (transpose cpm) /\
        Forall2 (fun d x =>
                   exists cpm_all,
                     formation_of_record refstate_energies d "CPM" (thin 10) = Ok cpm_all /\
                     x = slice_drop_last 2 cpm_all)
          matched cpm)).

(** What C5 says of the values and conditions of one call [c]. *)
Definition shaped_values (matched : list (pyval num)) (i : Z)
  (c : MakeDatasetArgs num) : Prop :=
  exists before last_record tprops T,
    matched = (before ++ [last_record])%list /\
    get_thermal_props last_record = Ok tprops /\
    dict_item tprops "T" = Ok T /\
    ((In (md_prop c) ["HM_FORM"; "SM_FORM"] /\
      exists values fixed_temp,
        md_values c = [[values]] /\
        List.length values = List.length matched /\
        py_index T i = Ok fixed_temp /\
        md_conditions c = [("P", PyInt 101325); ("T", PyFloat fixed_temp)]) \/
     (md_prop c = "CPM_FORM" /\
      exists rows,
        md_values c = newaxis (transpose rows) /\
        List.length rows = List.length matched /\
        rectangular rows = true /\
        md_conditions c =
        [("P", PyInt 101325);
         ("T", PyList (map PyFloat (slice_drop_last 2 (slice_step 10 T))))])).

Lemma refstate_loop_binds (docs : list (pyval num)) (tags : list (string * string))
  s s' :
  for_each_pure tags (refstate_step (Ok docs)) s = Ok s' ->
  NoDup (map fst tags) ->
  (forall el tag, In (el, tag) tags ->
     exists tp,
       get_thermal_props (first_match (tag_query tag) docs) = Ok tp /\
       dict_get (fst s') el = Some tp) /\
  (forall k, ~ In k (map fst tags) -> dict_get (fst s') k = dict_get (fst s) k).
Proof.
  revert s. induction tags as [|[el0 tag0] tags IH]; intros s H Hnd; simpl in H.
  - inversion H; subst. split; [intros ? ? []| reflexivity].
  - unfold refstate_step at 1 in H. cbn [rbind fst snd] in H.
    destruct (get_thermal_props (first_match (tag_query tag0) docs)) as [tp0|] eqn:Htp;
      cbn [rbind] in H; [|discriminate].
    inversion Hnd as [|? ? Hnotin Hnd']; subst.
    destruct (IH _ H Hnd') as [Hin Hkeep]. cbn [fst] in Hkeep.
    split.
    + intros el tag [Heq|Hin'].
      * inversion Heq; subst. exists tp0. split; [exact Htp|].
        rewrite (Hkeep _ Hnotin). apply dict_get_set.
      * apply Hin. exact Hin'.
    + intros k Hk. simpl in Hk.
      rewrite Hkeep by tauto. apply dict_get_set_other. intros ->. tauto.
Qed.

Lemma qha_row_formation refs i (d : pyval num) (r : Row num) :
  qha_row refs i d r ->
  formation_of_record refs d "HM" (idx i) = Ok (r_hm r) /\
  formation_of_record refs d "SM" (idx i) = Ok (r_sm r) /\
  exists cpm_all,
    formation_of_record refs d "CPM" (thin 10) = Ok cpm_all /\
    r_cpm r = slice_drop_last 2 cpm_all.
Proof.
  intros (_ & _ & tp & sd & st & cpm_all & T & Htp & Hsd & Hst & Hhm & Hsm & Hcpm
          & Hr & _).
  unfold formation_of_record. rewrite Htp. cbn [rbind]. rewrite Hsd. cbn [rbind].
  rewrite Hst. cbn [rbind].
  split; [exact Hhm | split; [exact Hsm|]].
  exists cpm_all. split; assumption.
Qed.

(** C3: the values that [make_dataset] receives are formation
    quantities relative to the reference elements.  For every call that a
    run makes: [refstate_energies] maps each element of [refstate_tags]
    to [get_thermal_props] of the record that [find_one] gives for its
    tag, and the values are, one per matching record and in order,
    [get_formation_energy(tprops, struct, refstate_energies, prop, ...)]
    with [idx=temperature_index] for HM and SM, and with [thin=10] and the
    last two entries dropped for CPM.  A run that returns makes the three
    calls, for HM_FORM, SM_FORM and CPM_FORM. *)
Theorem values_are_formation_energies phase_name refstate_tags
  configuration_to_find sublattice_site_ratios db_file collection
  temperature_index writefile (w : World num) docs :
  w_db w db_file collection = Ok docs ->
  NoDup (map fst refstate_tags) ->
  let matched :=
    filter (doc_matches (config_query configuration_to_find phase_name)) docs in
  let run := dfttk_writeto_json phase_name refstate_tags configuration_to_find
               sublattice_site_ratios db_file collection temperature_index
               writefile w in
  exists new,
    w_calls (snd run) = (w_calls w ++ new)%list /\
    Forall (formation_values refstate_tags docs matched temperature_index) new /\
    (is_ok (fst run) = true ->
     map md_prop new = ["HM_FORM"; "SM_FORM"; "CPM_FORM"]).
Proof.
  intros Hw Hnd matched run.
  destruct run as [r w'] eqn:Hrun. unfold run in Hrun.
  destruct (dfttk_calls _ _ _ _ _ _ _ _ _ _ _ Hrun) as (new & Hcalls & _ & Hlen & Hnew).
  exists new. split; [exact Hcalls|].
  destruct Hnew as [-> | (u & docs' & refs & t & rows0 & rl & flat & k & F)].
  { split; [constructor | intros Hok; apply Hlen in Hok; discriminate Hok]. }
  destruct F as (_ & Hw' & Hrefs & Hrows & _ & _ & ->).
  rewrite Hw in Hw'. inversion Hw'; subst docs'. fold matched in Hrows.
  destruct (refstate_loop_binds _ _ _ _ Hrefs Hnd) as [Hbind _]. cbn [fst] in Hbind.
  split.
  - apply Forall_firstn_of. unfold planned_calls.
    repeat constructor; exists refs; (split; [exact Hbind|]); cbn [map].
    + left. split; [reflexivity|]. eexists. split; [reflexivity|].
      eapply Forall2_map_right; [|exact Hrows].
      intros d r0 Hr. apply (qha_row_formation _ _ _ _ Hr).
    + right; left. split; [reflexivity|]. eexists. split; [reflexivity|].
      eapply Forall2_map_right; [|exact Hrows].
      intros d r0 Hr. apply (qha_row_formation _ _ _ _ Hr).
    + right; right. split; [reflexivity|]. eexists. split; [reflexivity|].
      eapply Forall2_map_right; [|exact Hrows].
      intros d r0 Hr. apply (qha_row_formation _ _ _ _ Hr).
  - intros Hok. apply Hlen in Hok.
    destruct k as [|[|[|k]]]; try discriminate Hok.
    unfold planned_calls. cbn [map firstn]. rewrite firstn_nil. reflexivity.
Qed.

Lemma Forall2_last_row {A B : Type} (R : A -> B -> Prop) (l : list A)
  (rows0 : list B) (rl : B) :
  Forall2 R l (rows0 ++ [rl]) ->
  exists before x, l = (before ++ [x])%list /\ R x rl.
Proof.
  intros H. apply Forall2_app_inv_r in H.
  destruct H as (l1 & l2 & _ & H2 & ->).
  inversion H2 as [|x y l2' l' Hxy Hnil]; subst.
  inversion Hnil; subst. exists l1, x. split; [reflexivity | exact Hxy].
Qed.

(** C5: the shape of what [make_dataset] receives.  For every call that
    a run makes: the HM and SM values are the per-record values wrapped
    twice, [np.array([[values]])]; the CPM values are the per-record
    arrays, stacked, transposed and given a leading axis; the conditions
    carry [P = 101325] and a [T] read from the temperatures of the last
    matching record, the entry at [temperature_index] for HM and SM, every
    tenth entry without the last two for CPM.  A run that returns makes the
    three calls, for HM_FORM, SM_FORM and CPM_FORM. *)
Theorem values_are_reshaped phase_name refstate_tags
  configuration_to_find sublattice_site_ratios db_file collection
  temperature_index writefile (w : World num) docs :
  w_db w db_file collection = Ok docs ->
  let matched :=
    filter (doc_matches (config_query configuration_to_find phase_name)) docs in
  let run := dfttk_writeto_json phase_name refstate_tags configuration_to_find
               sublattice_site_ratios db_file collection temperature_index
               writefile w in
  exists new,
    w_calls (snd run) = (w_calls w ++ new)%list /\
    Forall (shaped_values matched temperature_index) new /\
    (is_ok (fst run) = true ->
     map md_prop new = ["HM_FORM"; "SM_FORM"; "CPM_FORM"]).
Proof.
  intros Hw matched run.
  destruct run as [r w'] eqn:Hrun. unfold run in Hrun.
  destruct (dfttk_calls _ _ _ _ _ _ _ _ _ _ _ Hrun) as (new & Hcalls & _ & Hlen & Hnew).
  exists new. split; [exact Hcalls|].
  destruct Hnew as [-> | (u & docs' & refs & t & rows0 & rl & flat & k & F)].
  { split; [constructor | intros Hok; apply Hlen in Hok; discriminate Hok]. }
  destruct F as (_ & Hw' & _ & Hrows & Hrect & _ & ->).
  rewrite Hw in Hw'. inversion Hw'; subst docs'. fold matched in Hrows.
  pose proof (Forall2_length Hrows) as Hlenrows.
  destruct (Forall2_last_row _ _ _ _ Hrows) as (before & dl & Hm & Hrl).
  destruct Hrl as (_ & _ & tp & sd & st & cpm_all & T & Htp & _ & _ & _ & _ & _
                   & _ & HT & Hft & Hct).
  split.
  - apply Forall_firstn_of. unfold planned_calls.
    repeat constructor; exists before, dl, tp, T;
      (split; [exact Hm | split; [exact Htp | split; [exact HT|]]]); cbn [map].
    + left. split; [left; reflexivity|].
      exists (map r_hm (rows0 ++ [rl])), (r_fixed_temp rl).
      split; [reflexivity | split; [|split; [exact Hft | reflexivity]]].
      rewrite length_map. symmetry. exact Hlenrows.
    + left. split; [right; left; reflexivity|].
      exists (map r_sm (rows0 ++ [rl])), (r_fixed_temp rl).
      split; [reflexivity | split; [|split; [exact Hft | reflexivity]]].
      rewrite length_map. symmetry. exact Hlenrows.
    + right. split; [reflexivity|].
      exists (map r_cpm (rows0 ++ [rl])).
      split; [reflexivity | split; [|split; [exact Hrect|]]].
      * rewrite length_map. symmetry. exact Hlenrows.
      * unfold call_args, temp_conds_of; cbn [md_conditions snd]. rewrite Hct.
        reflexivity.
  - intros Hok. apply Hlen in Hok.
    destruct k as [|[|[|k]]]; try discriminate Hok.
    unfold planned_calls. cbn [map firstn]. rewrite firstn_nil. reflexivity.
Qed.

End DatasetValues.

Lemma values_are_formation_energies_witness :
  exists new,
    w_calls (snd (Demo.run (PyBool false))) = (w_calls Demo.world ++ new)%list /\
    Forall (formation_values (L := Demo.lib) Demo.refstate_tags Demo.docs
              (filter (Demo.eq_matches (config_query Demo.config_FeNi "FCC_A1"))
                 Demo.docs) 30) new /\
    (is_ok (fst (Demo.run (PyBool false))) = true ->
     map md_prop new = ["HM_FORM"; "SM_FORM"; "CPM_FORM"]).
Proof.
  apply (values_are_formation_energies (L := Demo.lib) "FCC_A1" Demo.refstate_tags
           Demo.config_FeNi (PyList [PyFloat 1%Z]) "db.json" "qha" 30%Z (PyBool false)
           Demo.world Demo.docs).
  - reflexivity.
  - simpl. constructor.
    + intros [H|[]]. discriminate H.
    + constructor; [intros [] | constructor].
Defined.

Lemma values_are_reshaped_witness :
  exists new,
    w_calls (snd (Demo.run (PyBool false))) = (w_calls Demo.world ++ new)%list /\
    Forall (shaped_values (L := Demo.lib)
              (filter (Demo.eq_matches (config_query Demo.config_FeNi "FCC_A1"))
                 Demo.docs) 30) new /\
    (is_ok (fst (Demo.run (PyBool false))) = true ->
     map md_prop new = ["HM_FORM"; "SM_FORM"; "CPM_FORM"]).
Proof.
  apply (values_are_reshaped (L := Demo.lib) "FCC_A1" Demo.refstate_tags
           Demo.config_FeNi (PyList [PyFloat 1%Z]) "db.json" "qha" 30%Z (PyBool false)
           Demo.world Demo.docs).
  reflexivity.
Defined.

(* ================================================================== *)
(** * The file and the return value *)
(* ================================================================== *)

Section Output.

Context {num Structure : Type} {L : Lib num Structure}.

(** Whatever happens, a run with [writefile] other than [True] leaves
    the files alone. *)
Lemma no_file_unless_writefile phase tags cfg ratios db coll i wf (w : World num) :
  is_True wf = false ->
  w_fs (snd (dfttk_writeto_json phase tags cfg ratios db coll i wf w)) = w_fs w.
Proof.
  intros Hwf.
  destruct (dfttk_writeto_json phase tags cfg ratios db coll i wf w) as [r w'] eqn:H.
  destruct (dfttk_preamble_inv _ _ _ _ _ _ _ _ _ _ _ H)
    as [(-> & _) | (u & docs & refs & tag & rows0 & rl & flat & F)]; [reflexivity|].
  destruct F as (Hdb & Hw & Hrefs & Hrows & Hrect & Hflat).
  rewrite (dfttk_preamble_ok _ _ _ _ _ _ _ _ _ _ _ _ _ _ _ _
             Hdb Hw Hrefs Hrows Hrect Hflat) in H.
  destruct tag as [t|].
  2:{ rewrite emit_datasets_unbound_tag in H. inversion H; reflexivity. }
  rewrite emit_datasets_eq, Hwf in H.
  destruct (make_dataset _) in H; [|inversion H; reflexivity].
  destruct (make_dataset _) in H; [|inversion H; reflexivity].
  destruct (make_dataset _) in H; inversion H; reflexivity.
Qed.

(** A run that returns a dataset under [writefile=False] goes, under any
    other [writefile], through the same steps up to line 116. *)
Lemma dfttk_returns_inv phase tags cfg ratios db coll i (w : World num) ds w1 :
  dfttk_writeto_json phase tags cfg ratios db coll i (PyBool false) w = (Ok ds, w1) ->
  w_fs w1 = w_fs w /\
  exists flat,
    recursive_flatten cfg = Ok flat /\
    forall wf,
      dfttk_writeto_json phase tags cfg ratios db coll i wf w =
      if is_True wf then
        write_file (format_filename (join "-" (map upper (sorted flat))) phase "CPM_FORM")
          ds w1
      else (Ok ds, w1).
Proof.
  intros H.
  split.
  { change w1 with (snd (Ok ds, w1)). rewrite <- H.
    apply no_file_unless_writefile. reflexivity. }
  destruct (dfttk_preamble_inv _ _ _ _ _ _ _ _ _ _ _ H)
    as [(_ & e & He) | (u & docs & refs & tag & rows0 & rl & flat & F)];
    [discriminate He|].
  destruct F as (Hdb & Hw & Hrefs & Hrows & Hrect & Hflat).
  exists flat. split; [exact Hflat|]. intros wf.
  rewrite (dfttk_preamble_ok _ _ _ _ _ _ _ _ _ _ _ _ _ _ _ _
             Hdb Hw Hrefs Hrows Hrect Hflat) in H.
  rewrite (dfttk_preamble_ok _ _ _ _ _ _ _ _ _ _ _ _ _ _ _ _
             Hdb Hw Hrefs Hrows Hrect Hflat).
  destruct tag as [t|].
  2:{ rewrite emit_datasets_unbound_tag in H. discriminate H. }
  rewrite emit_datasets_eq in H. rewrite emit_datasets_eq. cbn [is_True] in H.
  destruct (make_dataset _); [|discriminate H].
  destruct (make_dataset _); [|discriminate H].
  destruct (make_dataset _); [|discriminate H].
  inversion H; subst. reflexivity.
Qed.

(** C6: with [writefile=True] the dataset goes to the file
    ['<COMPS>-<phase_name>-<prop>-DFTTK.json'], where COMPS joins with
    ['-'] the upper-cased, sorted flattening of [configuration_to_find]
    and [prop] is the last property of the loop, ['CPM_FORM']; the file
    then holds the text that [json.dump] wrote and the function returns
    [None].  With any other [writefile] no file is created or changed
    (whether the run returns or raises) and the dataset is returned.
    [ds] is the dataset that the run returns under [writefile=False]. *)
Theorem writefile_selects_file_or_return phase_name refstate_tags
  configuration_to_find sublattice_site_ratios db_file collection
  temperature_index (w : World num) :
  let run := dfttk_writeto_json phase_name refstate_tags configuration_to_find
               sublattice_site_ratios db_file collection temperature_index in
  (forall writefile, is_True writefile = false ->
     w_fs (snd (run writefile w)) = w_fs w) /\
  (forall ds w1, run (PyBool false) w = (Ok ds, w1) ->
     (forall writefile, is_True writefile = false -> run writefile w = (Ok ds, w1)) /\
     exists flat,
       recursive_flatten configuration_to_find = Ok flat /\
       let comps := map upper (sorted flat) in
       let path := format_filename (join "-" comps) phase_name "CPM_FORM" in
       run (PyBool true) w = write_file path ds w1 /\
       (forall u text,
          open_w path = Ok u -> json_dump ds = (text, Ok tt) ->
          run (PyBool true) w =
          (Ok PyNone, set_fs w1 (dict_set (w_fs w) path text)) /\
          dict_get (w_fs (snd (run (PyBool true) w))) path = Some text /\
          (forall p, p <> path ->
             dict_get (w_fs (snd (run (PyBool true) w))) p = dict_get (w_fs w) p))).
Proof.
  intros run. split.
  { intros wf Hwf. apply no_file_unless_writefile. exact Hwf. }
  intros ds w1 H. unfold run in H.
  destruct (dfttk_returns_inv _ _ _ _ _ _ _ _ _ _ H) as (Hfs & flat & Hflat & Hrun).
  split.
  { intros wf Hwf. unfold run. rewrite Hrun, Hwf. reflexivity. }
  exists flat. split; [exact Hflat|]. intros comps path.
  assert (Htrue : run (PyBool true) w = write_file path ds w1).
  { unfold run. rewrite Hrun. reflexivity. }
  split; [exact Htrue|].
  intros u text Hopen Hdump.
  assert (Hres : run (PyBool true) w =
                 (Ok PyNone, set_fs w1 (dict_set (w_fs w) path text))).
  { rewrite Htrue, write_file_eq, Hopen, Hdump, Hfs. reflexivity. }
  split; [exact Hres|]. rewrite Hres. cbn [snd set_fs w_fs].
  split; [apply dict_get_set|].
  intros p Hp. apply dict_get_set_other. exact Hp.
Qed.

End Output.

Lemma writefile_selects_file_or_return_witness :
  let run := dfttk_writeto_json (L := Demo.lib) "FCC_A1" Demo.refstate_tags
               Demo.config_FeNi (PyList [PyFloat 1%Z]) "db.json" "qha" 30 in
  w_fs (snd (run PyNone Demo.world)) = w_fs Demo.world /\
  dict_get (w_fs (snd (run (PyBool true) Demo.world)))
    "FE-NI-FCC_A1-CPM_FORM-DFTTK.json" = Some "{output: CPM_FORM, tag: ref-ni}".
Proof.
  intros run.
  pose proof (writefile_selects_file_or_return (L := Demo.lib) "FCC_A1"
                Demo.refstate_tags Demo.config_FeNi (PyList [PyFloat 1%Z])
                "db.json" "qha" 30%Z Demo.world) as [Hno Hyes].
  split.
  - apply Hno. reflexivity.
  - destruct (Hyes (match fst (run (PyBool false) Demo.world) with
                    | Ok ds => ds
                    | Raise _ => PyNone
                    end)
                   (snd (run (PyBool false) Demo.world)))
      as (_ & flat & Hflat & _ & Hfile).
    + vm_compute. reflexivity.
    + vm_compute in Hflat. injection Hflat as <-.
      destruct (Hfile tt "{output: CPM_FORM, tag: ref-ni}") as (_ & Hget & _).
      * reflexivity.
      * reflexivity.
      * exact Hget.
Defined.

(** C1, on the run
    [dfttk_writeto_json('FCC_A1', {'Fe': 'ref-fe', 'Ni': 'ref-ni'},
                        [['Fe', 'Ni']], [1.0], 'db.json', 'qha', 30)]
    with two matching records: the run returns, it builds the HM_FORM, the
    SM_FORM and the CPM_FORM dataset, and the only file it leaves holds
    the CPM_FORM dataset; the other two reach no file. *)
Theorem only_cpm_form_is_written :
  fst (Demo.run (PyBool true)) = Ok PyNone /\
  map md_prop (w_calls (snd (Demo.run (PyBool true)))) =
  ["HM_FORM"; "SM_FORM"; "CPM_FORM"] /\
  w_fs (snd (Demo.run (PyBool true))) =
  [("FE-NI-FCC_A1-CPM_FORM-DFTTK.json", "{output: CPM_FORM, tag: ref-ni}")].
Proof. vm_compute. repeat split. Qed.

(* ================================================================== *)
(** * No failure recovery *)
(* ================================================================== *)

Section NoRecovery.

Context {num Structure : Type} (e : exn) (L1 L2 : Lib num Structure).
Hypothesis HL : more_failures e L1 L2.

Lemma raises_or_refl {A : Type} (r : result A) : raises_or e r r.
Proof. right. reflexivity. Qed.

Lemma raises_or_bind {A B : Type} (r1 r2 : result A) (k1 k2 : A -> result B) :
  raises_or e r1 r2 ->
  (forall a, raises_or e (k1 a) (k2 a)) ->
  raises_or e (rbind r1 k1) (rbind r2 k2).
Proof.
  intros [-> | ->] Hk; [left; reflexivity|].
  destruct r1 as [a|e']; simpl; [apply Hk | apply raises_or_refl].
Qed.

Lemma raises_or_for_each_pure {S X : Type} (xs : list X) (b1 b2 : S -> X -> result S) :
  (forall s x, raises_or e (b1 s x) (b2 s x)) ->
  forall s, raises_or e (for_each_pure xs b1 s) (for_each_pure xs b2 s).
Proof.
  intros Hb. induction xs as [|x xs IH]; intros s; simpl.
  - apply raises_or_refl.
  - apply raises_or_bind; [apply Hb | exact IH].
Qed.

Lemma raises_or_qha_body refs i (v : QhaVars num) (d : pyval num) :
  raises_or e (qha_body (L := L1) refs i v d) (qha_body (L := L2) refs i v d).
Proof.
  unfold qha_body.
  repeat (apply raises_or_bind;
          [first [ apply raises_or_refl
                 | apply (mf_thermal_props e L1 L2 HL)
                 | apply (mf_from_dict e L1 L2 HL)
                 | apply (mf_formation_energy e L1 L2 HL) ]
          | intros ?]).
  apply raises_or_refl.
Qed.

Lemma sim_ret {A : Type} (a : A) : sim (num := num) e (ret a) (ret a).
Proof. intros w1 w2 Hw. right. split; [reflexivity | exact Hw]. Qed.

Lemma sim_lift {A : Type} (r1 r2 : result A) :
  raises_or e r1 r2 -> sim (num := num) e (lift r1) (lift r2).
Proof.
  intros [-> | ->] w1 w2 Hw; [left; reflexivity|].
  right. split; [reflexivity | exact Hw].
Qed.

Lemma sim_bind {A B : Type} (m1 m2 : M num A) (k1 k2 : A -> M num B) :
  sim e m1 m2 -> (forall a, sim e (k1 a) (k2 a)) ->
  sim e (bind m1 k1) (bind m2 k2).
Proof.
  intros Hm Hk w1 w2 Hw. unfold bind.
  specialize (Hm w1 w2 Hw).
  destruct (m1 w1) as [r1 w1'], (m2 w2) as [r2 w2']. simpl in Hm.
  destruct Hm as [-> | [-> Hw']]; [left; reflexivity|].
  destruct r1 as [a|e']; [apply Hk; exact Hw'|].
  right. split; [reflexivity | exact Hw'].
Qed.

Lemma sim_for_each {S X : Type} (xs : list X) (b1 b2 : S -> X -> M num S) :
  (forall s x, sim e (b1 s x) (b2 s x)) ->
  forall s, sim e (for_each xs b1 s) (for_each xs b2 s).
Proof.
  intros Hb. induction xs as [|x xs IH]; intros s; simpl.
  - apply sim_ret.
  - apply sim_bind; [apply Hb | exact IH].
Qed.

Lemma sim_find db_file collection (q : Query num) :
  sim e (find (L := L1) db_file collection q) (find (L := L2) db_file collection q).
Proof.
  intros w1 w2 Hw. unfold find; simpl.
  destruct (Hw db_file collection) as [-> | ->]; [left; reflexivity|].
  right. split; [|exact Hw].
  destruct (w_db w1 db_file collection) as [docs|e']; simpl; [|reflexivity].
  f_equal. apply filter_ext. intros d. apply (mf_doc_matches e L1 L2 HL).
Qed.

Lemma sim_find_one db_file collection (q : Query num) :
  sim e (find_one (L := L1) db_file collection q)
        (find_one (L := L2) db_file collection q).
Proof.
  unfold find_one. apply sim_bind; [apply sim_find | intros docs; apply sim_ret].
Qed.

Lemma sim_call_make_dataset (a : MakeDatasetArgs num) :
  sim e (call_make_dataset (L := L1) a) (call_make_dataset (L := L2) a).
Proof.
  intros w1 w2 Hw. unfold call_make_dataset; simpl.
  destruct (mf_make_dataset e L1 L2 HL a) as [-> | ->]; [left; reflexivity|].
  right. split; [reflexivity | exact Hw].
Qed.

Lemma sim_fs_open_w (path : string) :
  sim e (fs_open_w (L := L1) path) (fs_open_w (L := L2) path).
Proof.
  intros w1 w2 Hw. unfold fs_open_w.
  destruct (mf_open_w e L1 L2 HL path) as [-> | ->]; [left; reflexivity|].
  right. destruct (open_w path); (split; [reflexivity | exact Hw]).
Qed.

Lemma sim_fs_json_dump (ds : pyval num) (path : string) :
  sim e (fs_json_dump (L := L1) ds path) (fs_json_dump (L := L2) ds path).
Proof.
  intros w1 w2 Hw. unfold fs_json_dump.
  pose proof (mf_json_dump e L1 L2 HL ds) as H.
  destruct (json_dump (Lib := L1) ds) as [t1 r1].
  destruct (json_dump (Lib := L2) ds) as [t2 r2]. simpl in H |- *.
  destruct H as [-> | ->]; [left; reflexivity|].
  right. split; [reflexivity | exact Hw].
Qed.

Ltac sim_steps :=
  repeat first
    [ apply sim_ret
    | apply sim_find_one
    | apply sim_find
    | apply sim_call_make_dataset
    | apply sim_fs_open_w
    | apply sim_fs_json_dump
    | apply sim_lift;
      first [ apply raises_or_refl
            | apply (mf_from_db_file e L1 L2 HL)
            | apply (mf_from_dict e L1 L2 HL)
            | apply (mf_from_structure e L1 L2 HL)
            | apply (mf_thermal_props e L1 L2 HL)
            | apply (mf_recursive_flatten e L1 L2 HL) ]
    | apply sim_bind; [|intros ?] ].

Lemma sim_update_metadata phase_name metadata_tag db_file collection :
  sim e (update_metadata (L := L1) phase_name metadata_tag db_file collection)
        (update_metadata (L := L2) phase_name metadata_tag db_file collection).
Proof. unfold update_metadata. sim_steps. Qed.

Lemma sim_emit_datasets phase ratios cfgs occs tag hm sm cpm fc tc comps wf :
  sim e (emit_datasets (L := L1) phase ratios cfgs occs tag hm sm cpm fc tc comps wf)
        (emit_datasets (L := L2) phase ratios cfgs occs tag hm sm cpm fc tc comps wf).
Proof.
  unfold emit_datasets.
  apply sim_bind.
  - apply sim_for_each. intros s [[prop vals] conds]. unfold dataset_body. sim_steps.
  - intros dp. destruct (is_True wf); sim_steps.
Qed.

Lemma sim_dfttk_writeto_json phase tags cfg ratios db coll i wf :
  sim e (dfttk_writeto_json (L := L1) phase tags cfg ratios db coll i wf)
        (dfttk_writeto_json (L := L2) phase tags cfg ratios db coll i wf).
Proof.
  unfold dfttk_writeto_json.
  apply sim_bind; [sim_steps | intros _].
  apply sim_bind.
  { apply sim_for_each. intros s item. unfold refstate_body. sim_steps. }
  intros rs.
  apply sim_bind; [apply sim_find | intros docs].
  apply sim_bind.
  { apply sim_lift. apply raises_or_for_each_pure. intros v d.
    apply raises_or_qha_body. }
  intros v.
  do 4 (apply sim_bind; [sim_steps | intros ?]).
  apply sim_emit_datasets.
Qed.

End NoRecovery.

(** C7: neither function recovers from a failure.  Take any library and
    database, and make any of their calls raise [e] where they did
    something else before.  Each function then either raises exactly [e],
    or ends as it did before (none of the altered calls was reached):
    there is no third outcome, such as a fallback value, a retry that
    succeeds, or another exception in place of [e]. *)
Theorem exceptions_propagate_unchanged {num Structure : Type} (e : exn)
  (L1 L2 : Lib num Structure) (w1 w2 : World num) :
  more_failures e L1 L2 ->
  db_more_failures e w1 w2 ->
  (forall phase_name metadata_tag db_file collection,
     raises_or e
       (fst (update_metadata (L := L1) phase_name metadata_tag db_file collection w1))
       (fst (update_metadata (L := L2) phase_name metadata_tag db_file collection w2))) /\
  (forall phase_name refstate_tags configuration_to_find sublattice_site_ratios
          db_file collection temperature_index writefile,
     raises_or e
       (fst (dfttk_writeto_json (L := L1) phase_name refstate_tags
               configuration_to_find sublattice_site_ratios db_file collection
               temperature_index writefile w1))
       (fst (dfttk_writeto_json (L := L2) phase_name refstate_tags
               configuration_to_find sublattice_site_ratios db_file collection
               temperature_index writefile w2))).
Proof.
  intros HL Hw. split.
  - intros phase_name metadata_tag db_file collection.
    destruct (sim_update_metadata e L1 L2 HL phase_name metadata_tag db_file collection
                w1 w2 Hw) as [H | [H _]]; [left | right]; exact H.
  - intros phase_name refstate_tags configuration_to_find sublattice_site_ratios
           db_file collection temperature_index writefile.
    destruct (sim_dfttk_writeto_json e L1 L2 HL phase_name refstate_tags
                configuration_to_find sublattice_site_ratios db_file collection
                temperature_index writefile w1 w2 Hw) as [H | [H _]];
      [left | right]; exact H.
Qed.

(** The demo library with [get_thermal_props] out of order. *)
Definition lib_without_thermal_props : Lib Z Demo.value := {|
  VaspCalcDb_from_db_file := VaspCalcDb_from_db_file (Lib := Demo.lib);
  doc_matches := doc_matches (Lib := Demo.lib);
  Structure_from_dict := Structure_from_dict (Lib := Demo.lib);
  PRLStructure_from_structure := PRLStructure_from_structure (Lib := Demo.lib);
  get_thermal_props := fun _ => Raise (LibraryError "KeyError" "gibbs_free_energy");
  get_formation_energy := get_formation_energy (Lib := Demo.lib);
  make_dataset := make_dataset (Lib := Demo.lib);
  recursive_flatten := recursive_flatten (Lib := Demo.lib);
  open_w := open_w (Lib := Demo.lib);
  json_dump := json_dump (Lib := Demo.lib)
|}.

Lemma exceptions_propagate_unchanged_witness :
  raises_or (LibraryError "KeyError" "gibbs_free_energy")
    (fst (update_metadata (L := Demo.lib) "FCC_A1" "fcc-2" "db.json" "qha" Demo.world))
    (fst (update_metadata (L := lib_without_thermal_props)
            "FCC_A1" "fcc-2" "db.json" "qha" Demo.world)) /\
  raises_or (LibraryError "KeyError" "gibbs_free_energy")
    (fst (Demo.run (PyBool true)))
    (fst (dfttk_writeto_json (L := lib_without_thermal_props) "FCC_A1"
            Demo.refstate_tags Demo.config_FeNi (PyList [PyFloat 1%Z])
            "db.json" "qha" 30 (PyBool true) Demo.world)).
Proof.
  assert (HL : more_failures (LibraryError "KeyError" "gibbs_free_energy")
                 Demo.lib lib_without_thermal_props).
  { constructor; intros;
      first [reflexivity | right; reflexivity | left; reflexivity]. }
  assert (Hw : db_more_failures (LibraryError "KeyError" "gibbs_free_energy")
                 Demo.world Demo.world).
  { intros f c. right. reflexivity. }
  destruct (exceptions_propagate_unchanged _ _ _ _ _ HL Hw) as [Hu Hd].
  split; [apply Hu | apply Hd].
Defined.

(** In that library the first reference element already fails, and the
    exception is the one that leaves [dfttk_writeto_json]. *)
Example thermal_props_failure_reaches_the_caller :
  dfttk_writeto_json (L := lib_without_thermal_props) "FCC_A1"
    Demo.refstate_tags Demo.config_FeNi (PyList [PyFloat 1%Z])
    "db.json" "qha" 30 (PyBool true) Demo.world =
  (Raise (LibraryError "KeyError" "gibbs_free_energy"), Demo.world).
Proof. reflexivity. Qed.

(* ================================================================== *)
(** * The temperature grid of line 101 and the array of line 111 *)
(* ================================================================== *)

Section Arrays.

Context {A : Type}.

Lemma slice_step_from_nth (k c : nat) (a : list A) (j : nat) :
  (1 <= k)%nat ->
  nth_error (slice_step_from k c a) j = nth_error a (c + j * k)%nat.
Proof.
  intros Hk. revert c j. induction a as [|x t IH]; intros c j.
  - simpl. rewrite !nth_error_nil. reflexivity.
  - destruct c as [|c']; simpl.
    + destruct j as [|j']; [reflexivity|].
      simpl. rewrite IH.
      replace (k + j' * k)%nat with (S (k - 1 + j' * k)) by lia. reflexivity.
    + apply IH.
Qed.

Lemma slice_step_from_length (k c : nat) (a : list A) :
  (1 <= k)%nat ->
  List.length (slice_step_from k c a) = ((List.length a + k - 1 - c) / k)%nat.
Proof.
  intros Hk. revert c. induction a as [|x t IH]; intros c.
  - simpl. symmetry. apply Nat.div_small. lia.
  - destruct c as [|c']; simpl.
    + rewrite IH.
      replace (List.length t + k - 0 - 0)%nat
        with (List.length t + k - 1 - (k - 1) + 1 * k)%nat by lia.
      rewrite Nat.div_add by lia. lia.
    + rewrite IH. f_equal. lia.
Qed.

(** [T[::10][:-2]]: the grid of the heat capacities has two points less
    than the ceiling of [len(T) / 10], none when [T] has at most 20
    entries, and its [j]-th point is [T[10 * j]]. *)
Theorem cpm_temps_grid (T : list A) :
  let grid := slice_drop_last 2 (slice_step 10 T) in
  List.length grid = ((List.length T + 9) / 10 - 2)%nat /\
  (forall j, (j < List.length grid)%nat -> nth_error grid j = nth_error T (10 * j)%nat) /\
  ((List.length T <= 20)%nat -> grid = []).
Proof.
  intros grid.
  assert (Hstep : List.length (slice_step 10 T) = ((List.length T + 9) / 10)%nat).
  { unfold slice_step. rewrite slice_step_from_length by lia. f_equal. lia. }
  assert (Hlen : List.length grid = ((List.length T + 9) / 10 - 2)%nat).
  { unfold grid, slice_drop_last. rewrite length_firstn, Hstep. lia. }
  split; [exact Hlen | split].
  - intros j Hj. unfold grid, slice_drop_last.
    rewrite nth_error_firstn.
    replace (Nat.ltb j (List.length (slice_step 10 T) - 2)) with true.
    + unfold slice_step. rewrite slice_step_from_nth by lia. f_equal. lia.
    + symmetry. apply Nat.ltb_lt. rewrite Hstep. rewrite Hlen in Hj. exact Hj.
  - intros Hshort. apply length_zero_iff_nil. rewrite Hlen.
    assert ((List.length T + 9) / 10 < 3)%nat; [|lia].
    apply Nat.Div0.div_lt_upper_bound. lia.
Qed.

Lemma rectangular_widths (r0 : list A) (rows : list (list A)) :
  rectangular (r0 :: rows) = true ->
  forall r, In r (r0 :: rows) -> List.length r = List.length r0.
Proof.
  unfold rectangular. intros H r [<- | Hin]; [reflexivity|].
  rewrite forallb_forall in H. apply Nat.eqb_eq. apply H. exact Hin.
Qed.

Lemma column_nth (j : nat) (rows : list (list A)) (k : nat) :
  (forall r, In r rows -> (j < List.length r)%nat) ->
  nth_error (column j rows) k =
  match nth_error rows k with
  | Some r => nth_error r j
  | None => None
  end.
Proof.
  revert k. induction rows as [|r rows IH]; intros k Hw; simpl.
  - rewrite !nth_error_nil. reflexivity.
  - destruct (nth_error r j) as [x|] eqn:E.
    + destruct k as [|k']; simpl; [exact (eq_sym E)|].
      apply IH. intros r' Hr'. apply Hw. right. exact Hr'.
    + exfalso. apply nth_error_None in E.
      specialize (Hw r (or_introl eq_refl)). lia.
Qed.

Lemma column_length (j : nat) (rows : list (list A)) :
  (forall r, In r rows -> (j < List.length r)%nat) ->
  List.length (column j rows) = List.length rows.
Proof.
  induction rows as [|r rows IH]; intros Hw; simpl; [reflexivity|].
  destruct (nth_error r j) as [x|] eqn:E.
  - simpl. f_equal. apply IH. intros r' Hr'. apply Hw. right. exact Hr'.
  - exfalso. apply nth_error_None in E.
    specialize (Hw r (or_introl eq_refl)). lia.
Qed.

Lemma transpose_nth (r0 : list A) (rows : list (list A)) (j : nat) :
  rectangular (r0 :: rows) = true ->
  nth_error (transpose (r0 :: rows)) j =
  if Nat.ltb j (List.length r0) then Some (column j (r0 :: rows)) else None.
Proof.
  intros _. unfold transpose.
  rewrite nth_error_map, nth_error_seq.
  destruct (Nat.ltb j (List.length r0)); reflexivity.
Qed.

(** Line 111: in [np.array(cpm_values).T] the entry [j, k] is the entry
    [k, j] of [cpm_values], so that after the new axis
    [values[0][j][k]] is the [j]-th heat capacity of the [k]-th matching
    record; the array has as many rows as a record has heat capacities
    and as many columns as there are records. *)
Theorem transpose_layout (rows : list (list A)) :
  rows <> [] ->
  rectangular rows = true ->
  (forall j k x,
     (exists col, nth_error (transpose rows) j = Some col /\ nth_error col k = Some x) <->
     (exists r, nth_error rows k = Some r /\ nth_error r j = Some x)) /\
  List.length (transpose rows) = List.length (hd [] rows) /\
  (forall col, In col (transpose rows) -> List.length col = List.length rows).
Proof.
  intros Hne Hrect. destruct rows as [|r0 rows]; [contradiction|]. clear Hne.
  pose proof (rectangular_widths _ _ Hrect) as Hw.
  assert (Hcol : forall j, (j < List.length r0)%nat ->
                 forall r, In r (r0 :: rows) -> (j < List.length r)%nat).
  { intros j Hj r Hr. rewrite (Hw r Hr). exact Hj. }
  split; [|split].
  - intros j k x. rewrite transpose_nth by exact Hrect. split.
    + intros (col & Hc & Hx).
      destruct (Nat.ltb j (List.length r0)) eqn:Hj; [|discriminate].
      apply Nat.ltb_lt in Hj. inversion Hc; subst col.
      rewrite (column_nth _ _ _ (Hcol j Hj)) in Hx.
      destruct (nth_error (r0 :: rows) k) as [r|]; [|discriminate].
      exists r. split; [reflexivity | exact Hx].
    + intros (r & Hr & Hx).
      assert (Hj : (j < List.length r0)%nat).
      { rewrite <- (Hw r (nth_error_In _ _ Hr)).
        apply nth_error_Some. rewrite Hx. discriminate. }
      apply Nat.ltb_lt in Hj. rewrite Hj.
      exists (column j (r0 :: rows)). split; [reflexivity|].
      apply Nat.ltb_lt in Hj.
      rewrite (column_nth _ _ _ (Hcol j Hj)), Hr. exact Hx.
  - unfold transpose. rewrite length_map, length_seq. reflexivity.
  - intros col Hin. unfold transpose in Hin. apply in_map_iff in Hin.
    destruct Hin as (j & <- & Hj). apply in_seq in Hj.
    apply column_length. apply Hcol. lia.
Qed.

End Arrays.

Section ArrayRoundTrip.

Context {A : Type}.

Lemma transpose_nth_error (rows : list (list A)) (j : nat) :
  nth_error (transpose rows) j =
  if Nat.ltb j (List.length (hd [] rows)) then Some (column j rows) else None.
Proof.
  destruct rows as [|r0 rows]; simpl.
  - apply nth_error_nil.
  - rewrite nth_error_map, nth_error_seq.
    destruct (Nat.ltb j (List.length r0)); reflexivity.
Qed.

(** Line 111 loses nothing: transposing the transposed array gives the
    per-record arrays back, when there is a record and the records have
    as many heat capacities each, at least one. *)
Theorem transpose_involutive (rows : list (list A)) :
  rectangular rows = true ->
  hd [] rows <> [] ->
  transpose (transpose rows) = rows.
Proof.
  intros Hrect Hwide.
  destruct rows as [|r0 rows]; [contradiction Hwide; reflexivity|].
  simpl hd in Hwide.
  pose proof (rectangular_widths _ _ Hrect) as Hw.
  assert (Hm : (0 < List.length r0)%nat).
  { destruct r0; [contradiction Hwide; reflexivity | simpl; lia]. }
  assert (Hcol : forall j, (j < List.length r0)%nat ->
                 forall r, In r (r0 :: rows) -> (j < List.length r)%nat).
  { intros j Hj r Hr. rewrite (Hw r Hr). exact Hj. }
  assert (Hhd : List.length (hd [] (transpose (r0 :: rows))) = List.length (r0 :: rows)).
  { unfold transpose. destruct (List.length r0) as [|m] eqn:E; [lia|].
    cbn [seq map hd]. apply column_length. apply Hcol. lia. }
  assert (Hcols : forall k, (k < List.length (r0 :: rows))%nat ->
                  forall col, In col (transpose (r0 :: rows)) ->
                              (k < List.length col)%nat).
  { intros k Hk col Hin. unfold transpose in Hin. apply in_map_iff in Hin.
    destruct Hin as (j & <- & Hj). apply in_seq in Hj.
    rewrite column_length; [exact Hk | apply Hcol; lia]. }
  apply nth_error_ext. intros k.
  rewrite transpose_nth_error, Hhd.
  destruct (Nat.ltb k (List.length (r0 :: rows))) eqn:Hk.
  - apply Nat.ltb_lt in Hk.
    destruct (nth_error (r0 :: rows) k) as [r|] eqn:Hr.
    2:{ apply nth_error_None in Hr. lia. }
    f_equal. apply nth_error_ext. intros j.
    rewrite (column_nth _ _ _ (Hcols k Hk)), transpose_nth_error. simpl hd.
    destruct (Nat.ltb j (List.length r0)) eqn:Hj.
    + apply Nat.ltb_lt in Hj. rewrite (column_nth _ _ _ (Hcol j Hj)), Hr. reflexivity.
    + apply Nat.ltb_ge in Hj. symmetry. apply nth_error_None.
      rewrite (Hw r (nth_error_In _ _ Hr)). exact Hj.
  - apply Nat.ltb_ge in Hk. symmetry. apply nth_error_None. exact Hk.
Qed.

End ArrayRoundTrip.

Lemma cpm_temps_grid_witness :
  List.length (slice_drop_last 2 (slice_step 10 (seq 0 41))) = 3%nat /\
  nth_error (slice_drop_last 2 (slice_step 10 (seq 0 41))) 2 = Some 20%nat.
Proof.
  destruct (cpm_temps_grid (seq 0 41)) as (Hlen & Hnth & _).
  split; [exact Hlen|].
  rewrite (Hnth 2%nat); [reflexivity|].
  rewrite Hlen. vm_compute. lia.
Defined.

Lemma transpose_layout_witness :
  (exists col,
     nth_error (transpose [[1; 2; 3]; [4; 5; 6]]%nat) 2 = Some col /\
     nth_error col 1 = Some 6%nat) /\
  List.length (transpose [[1; 2; 3]; [4; 5; 6]]%nat) = 3%nat.
Proof.
  destruct (transpose_layout [[1; 2; 3]; [4; 5; 6]]%nat) as (Hlayout & Hlen & _).
  - discriminate.
  - reflexivity.
  - split; [|exact Hlen].
    apply (proj2 (Hlayout 2%nat 1%nat 6%nat)).
    exists [4; 5; 6]%nat. split; reflexivity.
Defined.

Lemma transpose_involutive_witness :
  transpose (transpose [[1; 2; 3]; [4; 5; 6]]%nat) = [[1; 2; 3]; [4; 5; 6]]%nat.
Proof.
  apply transpose_involutive.
  - reflexivity.
  - discriminate.
Defined.

(* ================================================================== *)
(** * The file name of line 117 *)
(* ================================================================== *)

Section FileName.

Lemma string_leb_trans (a b c : string) :
  String.leb a b = true -> String.leb b c = true -> String.leb a c = true.
Proof.
  unfold String.leb. revert b c.
  induction a as [|ca a IH]; intros [|cb b] [|cc c]; simpl;
    try (intros; reflexivity); try (intros; discriminate).
  unfold Ascii.compare.
  destruct (N.compare_spec (N_of_ascii ca) (N_of_ascii cb)) as [H1|H1|H1];
    destruct (N.compare_spec (N_of_ascii cb) (N_of_ascii cc)) as [H2|H2|H2];
    destruct (N.compare_spec (N_of_ascii ca) (N_of_ascii cc)) as [H3|H3|H3];
    intros Hab Hbc;
    try reflexivity; try discriminate; try (exfalso; lia).
  exact (IH b c Hab Hbc).
Qed.

Lemma strongly_sorted_unique (l1 l2 : list string) :
  StronglySorted (fun a b => String.leb a b = true) l1 ->
  StronglySorted (fun a b => String.leb a b = true) l2 ->
  Permutation l1 l2 -> l1 = l2.
Proof.
  intros H1. revert l2. induction H1 as [|x l1 Hs1 IH Hx]; intros l2 H2 Hp.
  - apply Permutation_nil in Hp. symmetry. exact Hp.
  - destruct H2 as [|y l2 Hs2 Hy].
    + apply Permutation_sym, Permutation_nil in Hp. discriminate Hp.
    + assert (Hxy : x = y).
      { assert (Hin1 : In x (y :: l2)).
        { eapply Permutation_in; [exact Hp | left; reflexivity]. }
        assert (Hin2 : In y (x :: l1)).
        { eapply Permutation_in; [apply Permutation_sym; exact Hp | left; reflexivity]. }
        destruct Hin1 as [-> | Hin1]; [reflexivity|].
        destruct Hin2 as [-> | Hin2]; [reflexivity|].
        rewrite Forall_forall in Hx, Hy.
        apply String.leb_antisym; [apply Hx; exact Hin2 | apply Hy; exact Hin1]. }
      subst y. f_equal. apply IH; [exact Hs2|].
      eapply Permutation_cons_inv. exact Hp.
Qed.

Lemma sorted_strongly (l : list string) :
  StronglySorted (fun a b => String.leb a b = true) (sorted l).
Proof.
  apply Sorted_StronglySorted; [|apply sorted_ordered].
  intros a b c. apply string_leb_trans.
Qed.

(** Lines 113 and 117: the file name depends on the components of the
    configuration, not on the order in which the flattening lists them. *)
Theorem file_name_ignores_component_order
  (flat1 flat2 : list string) (phase_name prop : string) :
  Permutation flat1 flat2 ->
  dataset_path flat1 phase_name prop =
  dataset_path flat2 phase_name prop.
Proof.
  intros Hp. unfold dataset_path. do 3 f_equal.
  apply strongly_sorted_unique; try apply sorted_strongly.
  eapply perm_trans; [apply Permutation_sym, sorted_perm|].
  eapply perm_trans; [exact Hp | apply sorted_perm].
Qed.

End FileName.

Lemma file_name_ignores_component_order_witness :
  dataset_path ["Ni"; "Fe"] "FCC_A1" "CPM_FORM" =
  dataset_path ["Fe"; "Ni"] "FCC_A1" "CPM_FORM".
Proof.
  apply file_name_ignores_component_order. apply perm_swap.
Defined.

(* ================================================================== *)
(** * Edge cases of [update_metadata] and [dfttk_writeto_json] *)
(* ================================================================== *)

Section EdgeCases.

Context {num Structure : Type} {L : Lib num Structure}.

(** Lines 38-39: without a record of the given tag [find_one] returns
    [None], which line 39 subscripts: a [TypeError], not a result. *)
Theorem update_metadata_without_record
  (phase_name metadata_tag db_file collection : string) (w : World num) u docs :
  VaspCalcDb_from_db_file db_file true = Ok u ->
  w_db w db_file collection = Ok docs ->
  filter (doc_matches (tag_query metadata_tag)) docs = [] ->
  update_metadata phase_name metadata_tag db_file collection w =
  (Raise (TypeError "NoneType"), w).
Proof.
  intros Hdb Hw Hnone. unfold update_metadata.
  rewrite bind_lift, Hdb. unfold bind at 1. rewrite find_one_eq, Hw. cbn [rbind].
  unfold first_match. fold (tag_query (num := num) metadata_tag). rewrite Hnone.
  reflexivity.
Qed.

(** Line 39: a record of the given tag that has no ['structure'] gives a
    [KeyError] for that key; the library is not called on it. *)
Theorem update_metadata_without_structure
  (phase_name metadata_tag db_file collection : string) (w : World num)
  u docs fields :
  VaspCalcDb_from_db_file db_file true = Ok u ->
  w_db w db_file collection = Ok docs ->
  first_match (tag_query metadata_tag) docs = PyDict fields ->
  dict_get fields "structure" = None ->
  update_metadata phase_name metadata_tag db_file collection w =
  (Raise (KeyError "structure"), w).
Proof.
  intros Hdb Hw Hfound Hkey. unfold update_metadata.
  rewrite bind_lift, Hdb. unfold bind at 1. rewrite find_one_eq, Hw. cbn [rbind].
  fold (tag_query (num := num) metadata_tag). rewrite Hfound.
  rewrite bind_lift. unfold getitem, dict_item. rewrite Hkey. reflexivity.
Qed.

(** Lines 79-113 in terms of the variables that the loop of lines 92-104
    leaves: when every step returns, the run continues with lines
    114-120. *)
Lemma dfttk_preamble_vars phase tags cfg ratios db coll i wf (w : World num)
  u docs refs tag v ft ct flat :
  VaspCalcDb_from_db_file db true = Ok u ->
  w_db w db coll = Ok docs ->
  for_each_pure tags (refstate_step (Ok docs)) ([], None) = Ok (refs, tag) ->
  for_each_pure (filter (doc_matches (config_query cfg phase)) docs)
    (qha_body refs i) qha_init = Ok v ->
  fixed_temp v = Some ft ->
  cpm_temps v = Some ct ->
  rectangular (cpm_values v) = true ->
  recursive_flatten cfg = Ok flat ->
  dfttk_writeto_json phase tags cfg ratios db coll i wf w =
  emit_datasets phase ratios (configs v) (occupancies v) tag
    [[hm_values v]] [[sm_values v]] [transpose (cpm_values v)]
    (fixed_conds_of ft) (temp_conds_of ct) (map upper (sorted flat)) wf w.
Proof.
  intros Hdb Hw Hrefs Hloop Hft Hct Hrect Hflat.
  unfold dfttk_writeto_json.
  rewrite bind_lift, Hdb.
  unfold bind at 1. rewrite refstate_loop_eq, Hw, Hrefs. cbn [fst snd].
  unfold bind at 1, find at 1. rewrite Hw. cbn [rbind].
  fold (config_query cfg phase).
  rewrite bind_lift, Hloop, Hft. cbn [local]. rewrite bind_lift, Hct. cbn [local].
  rewrite bind_lift. unfold array2. rewrite Hrect.
  rewrite bind_lift, Hflat. reflexivity.
Qed.

(** Lines 82 and 115: with an empty [refstate_tags] the variable [tag]
    is never bound; when all of lines 79-113 went through, the first call
    of [make_dataset] cannot be made, and the run raises with no dataset
    built and no file written. *)
Theorem empty_refstate_tags_raise phase_name configuration_to_find
  sublattice_site_ratios db_file collection temperature_index writefile
  (w : World num) u docs v ft ct flat :
  VaspCalcDb_from_db_file db_file true = Ok u ->
  w_db w db_file collection = Ok docs ->
  for_each_pure
    (filter (doc_matches (config_query configuration_to_find phase_name)) docs)
    (qha_body [] temperature_index) qha_init = Ok v ->
  fixed_temp v = Some ft ->
  cpm_temps v = Some ct ->
  rectangular (cpm_values v) = true ->
  recursive_flatten configuration_to_find = Ok flat ->
  dfttk_writeto_json phase_name [] configuration_to_find sublattice_site_ratios
    db_file collection temperature_index writefile w =
  (Raise (UnboundLocalError "tag"), w).
Proof.
  intros Hdb Hw Hloop Hft Hct Hrect Hflat.
  rewrite (dfttk_preamble_vars _ [] _ _ _ _ _ _ _ u docs [] None v ft ct flat);
    try assumption; reflexivity.
Qed.

Lemma for_each_pure_app {S X : Type} (xs ys : list X) (body : S -> X -> result S)
  (s : S) :
  for_each_pure (xs ++ ys) body s =
  (let? s' := for_each_pure xs body s in for_each_pure ys body s').
Proof.
  revert s. induction xs as [|x xs IH]; intros s; simpl; [reflexivity|].
  destruct (body s x); simpl; [apply IH | reflexivity].
Qed.

(** Lines 83-84: a reference tag without a record is not detected by
    the script: [find_one] gives [None], [get_thermal_props] is called on
    it, and what that call raises ends the run before the configuration
    is queried. *)
Theorem missing_reference_record phase_name before el tag after
  configuration_to_find sublattice_site_ratios db_file collection
  temperature_index writefile (w : World num) u docs s e :
  VaspCalcDb_from_db_file db_file true = Ok u ->
  w_db w db_file collection = Ok docs ->
  for_each_pure before (refstate_step (Ok docs)) ([], None) = Ok s ->
  filter (doc_matches (tag_query tag)) docs = [] ->
  get_thermal_props PyNone = Raise e ->
  dfttk_writeto_json phase_name (before ++ (el, tag) :: after)
    configuration_to_find sublattice_site_ratios db_file collection
    temperature_index writefile w =
  (Raise e, w).
Proof.
  intros Hdb Hw Hbefore Hnone Hnoneprops. unfold dfttk_writeto_json.
  rewrite bind_lift, Hdb. unfold bind at 1.
  rewrite refstate_loop_eq, Hw, for_each_pure_app, Hbefore. cbn [rbind for_each_pure].
  unfold refstate_step at 1. cbn [rbind snd]. unfold first_match.
  rewrite Hnone, Hnoneprops. reflexivity.
Qed.

(** Lines 79-120 when every step returns: with [writefile=False] the
    function returns what [make_dataset] gave for CPM_FORM, the HM_FORM
    and SM_FORM datasets having been built and dropped, and no file is
    touched. *)
Theorem returns_cpm_form_dataset phase_name refstate_tags configuration_to_find
  sublattice_site_ratios db_file collection temperature_index (w : World num)
  u docs refs tag v ft ct flat d1 d2 d3 :
  let call := call_args phase_name sublattice_site_ratios
                (configs v) (occupancies v) tag in
  let c1 := call ("HM_FORM", [[hm_values v]], fixed_conds_of ft) in
  let c2 := call ("SM_FORM", [[sm_values v]], fixed_conds_of ft) in
  let c3 := call ("CPM_FORM", [transpose (cpm_values v)], temp_conds_of ct) in
  VaspCalcDb_from_db_file db_file true = Ok u ->
  w_db w db_file collection = Ok docs ->
  for_each_pure refstate_tags (refstate_step (Ok docs)) ([], None) = Ok (refs, Some tag) ->
  for_each_pure
    (filter (doc_matches (config_query configuration_to_find phase_name)) docs)
    (qha_body refs temperature_index) qha_init = Ok v ->
  fixed_temp v = Some ft ->
  cpm_temps v = Some ct ->
  rectangular (cpm_values v) = true ->
  recursive_flatten configuration_to_find = Ok flat ->
  make_dataset c1 = Ok d1 ->
  make_dataset c2 = Ok d2 ->
  make_dataset c3 = Ok d3 ->
  dfttk_writeto_json phase_name refstate_tags configuration_to_find
    sublattice_site_ratios db_file collection temperature_index (PyBool false) w =
  (Ok d3, log w [c1; c2; c3]) /\
  w_fs (log w [c1; c2; c3]) = w_fs w.
Proof.
  intros call c1 c2 c3 Hdb Hw Hrefs Hloop Hft Hct Hrect Hflat H1 H2 H3.
  split; [|reflexivity].
  rewrite (dfttk_preamble_vars _ _ _ _ _ _ _ _ _ u docs refs (Some tag) v ft ct flat);
    try assumption.
  subst c1 c2 c3 call.
  rewrite emit_datasets_eq.
  repeat match goal with
         | |- context [make_dataset ?a] =>
             first [ replace (make_dataset a) with (Ok d1) by (symmetry; exact H1)
                   | replace (make_dataset a) with (Ok d2) by (symmetry; exact H2)
                   | replace (make_dataset a) with (Ok d3) by (symmetry; exact H3) ]
         end.
  reflexivity.
Qed.

End EdgeCases.

(* ================================================================== *)
(** * Calls, files and failures of [dfttk_writeto_json] *)
(* ================================================================== *)

Section Effects.

Context {num Structure : Type} {L : Lib num Structure}.

(** Lines 114-115: [make_dataset] is called for HM_FORM, then SM_FORM,
    then CPM_FORM, and a call that raises ends the sequence; every call
    gets [phase_name] and [sublattice_site_ratios] as they were given. *)
Theorem datasets_are_requested_in_order phase_name refstate_tags
  configuration_to_find sublattice_site_ratios db_file collection
  temperature_index writefile (w : World num) :
  let run := dfttk_writeto_json phase_name refstate_tags configuration_to_find
               sublattice_site_ratios db_file collection temperature_index
               writefile w in
  exists new k,
    w_calls (snd run) = (w_calls w ++ new)%list /\
    map md_prop new = firstn k ["HM_FORM"; "SM_FORM"; "CPM_FORM"] /\
    Forall (fun c => md_phase_name c = phase_name /\
                     md_subl_site_ratios c = sublattice_site_ratios) new.
Proof.
  intros run. destruct run as [r w'] eqn:Hrun. unfold run in Hrun.
  destruct (dfttk_calls _ _ _ _ _ _ _ _ _ _ _ Hrun) as (new & Hcalls & _ & _ & Hnew).
  destruct Hnew as [-> | (u & docs & refs & t & rows0 & rl & flat & k & F)].
  { exists [], 0%nat. split; [exact Hcalls | split; [reflexivity | constructor]]. }
  destruct F as (_ & _ & _ & _ & _ & _ & ->).
  exists (firstn k (planned_calls phase_name sublattice_site_ratios (rows0 ++ [rl])
                      (r_fixed_temp rl) (r_cpm_temps rl) t)), k.
  split; [exact Hcalls | split].
  - rewrite <- firstn_map. reflexivity.
  - apply Forall_firstn_of. unfold planned_calls.
    repeat constructor.
Qed.

(** Every run, returning or not: the database is as before, and so is
    every file other than the one of line 117. *)
Theorem run_touches_one_file_at_most phase_name refstate_tags
  configuration_to_find sublattice_site_ratios db_file collection
  temperature_index writefile (w : World num) :
  let run := dfttk_writeto_json phase_name refstate_tags configuration_to_find
               sublattice_site_ratios db_file collection temperature_index
               writefile w in
  w_db (snd run) = w_db w /\
  (forall e, recursive_flatten configuration_to_find = Raise e ->
     w_fs (snd run) = w_fs w) /\
  (forall flat p,
     recursive_flatten configuration_to_find = Ok flat ->
     p <> dataset_path flat phase_name "CPM_FORM" ->
     dict_get (w_fs (snd run)) p = dict_get (w_fs w) p).
Proof.
  intros run. destruct run as [r w'] eqn:H. unfold run in H. cbn [snd].
  destruct (dfttk_preamble_inv _ _ _ _ _ _ _ _ _ _ _ H)
    as [(-> & _) | (u & docs & refs & tag & rows0 & rl & flat & F)].
  { repeat split; reflexivity. }
  destruct F as (Hdb & Hw & Hrefs & Hrows & Hrect & Hflat).
  rewrite (dfttk_preamble_ok _ _ _ _ _ _ _ _ _ _ _ _ _ _ _ _
             Hdb Hw Hrefs Hrows Hrect Hflat) in H.
  assert (G : w_db w' = w_db w /\
              forall p, p <> dataset_path flat phase_name "CPM_FORM" ->
                        dict_get (w_fs w') p = dict_get (w_fs w) p).
  { destruct tag as [t|].
    2:{ rewrite emit_datasets_unbound_tag in H. inversion H; subst.
        split; reflexivity. }
    rewrite emit_datasets_eq in H.
    destruct (make_dataset _) in H; [|inversion H; subst; split; reflexivity].
    destruct (make_dataset _) in H; [|inversion H; subst; split; reflexivity].
    destruct (make_dataset _) in H; [|inversion H; subst; split; reflexivity].
    destruct (is_True writefile); [|inversion H; subst; split; reflexivity].
    rewrite write_file_eq in H.
    destruct (open_w _) in H; inversion H; subst; cbn [w_db w_fs set_fs].
    - split; [reflexivity|]. intros p Hp. apply dict_get_set_other. exact Hp.
    - split; reflexivity. }
  destruct G as [Gdb Gfs].
  split; [exact Gdb | split].
  - intros e He. rewrite Hflat in He. discriminate He.
  - intros flat' p Hflat' Hp. rewrite Hflat in Hflat'. inversion Hflat'; subst flat'.
    apply Gfs. exact Hp.
Qed.

(** Lines 116-118 seen from a run that returns under [writefile=True]:
    it returns [None], it has made the three calls, and the file of line
    117 holds the text of the dataset that [make_dataset] gave for the
    last of them, CPM_FORM. *)
Theorem written_file_holds_cpm_form phase_name refstate_tags
  configuration_to_find sublattice_site_ratios db_file collection
  temperature_index (w : World num) r w' :
  dfttk_writeto_json phase_name refstate_tags configuration_to_find
    sublattice_site_ratios db_file collection temperature_index (PyBool true) w
  = (Ok r, w') ->
  r = PyNone /\
  exists flat c1 c2 c3 ds,
    recursive_flatten configuration_to_find = Ok flat /\
    w_calls w' = (w_calls w ++ [c1; c2; c3])%list /\
    md_prop c3 = "CPM_FORM" /\
    make_dataset c3 = Ok ds /\
    dict_get (w_fs w') (dataset_path flat phase_name "CPM_FORM") =
    Some (fst (json_dump ds)).
Proof.
  intros H.
  destruct (dfttk_preamble_inv _ _ _ _ _ _ _ _ _ _ _ H)
    as [(_ & e & He) | (u & docs & refs & tag & rows0 & rl & flat & F)];
    [discriminate He|].
  destruct F as (Hdb & Hw & Hrefs & Hrows & Hrect & Hflat).
  rewrite (dfttk_preamble_ok _ _ _ _ _ _ _ _ _ _ _ _ _ _ _ _
             Hdb Hw Hrefs Hrows Hrect Hflat) in H.
  destruct tag as [t|].
  2:{ rewrite emit_datasets_unbound_tag in H. discriminate H. }
  rewrite emit_datasets_eq in H.
  destruct (make_dataset _) as [d1|] in H; [|discriminate H].
  destruct (make_dataset _) as [d2|] in H; [|discriminate H].
  destruct (make_dataset _) as [d3|] eqn:H3 in H; [|discriminate H].
  cbn [is_True] in H. rewrite write_file_eq in H.
  destruct (open_w _) in H; [|discriminate H].
  destruct (snd (json_dump d3)) in H; [|discriminate H].
  inversion H; subst. split; [reflexivity|].
  exists flat. do 3 eexists. exists d3.
  split; [exact Hflat | split; [reflexivity | split; [reflexivity | split]]].
  - exact H3.
  - cbn [w_fs set_fs]. apply dict_get_set.
Qed.

(** Lines 117-118: when [json.dump] raises, the exception leaves the
    function, but [open] has already created or emptied the file, which
    keeps whatever [json.dump] wrote before it raised.  [ds] is the
    dataset of the run under [writefile=False]. *)
Theorem failed_dump_leaves_the_file phase_name refstate_tags
  configuration_to_find sublattice_site_ratios db_file collection
  temperature_index (w : World num) ds w1 flat u text e :
  let run := dfttk_writeto_json phase_name refstate_tags configuration_to_find
               sublattice_site_ratios db_file collection temperature_index in
  let path := dataset_path flat phase_name "CPM_FORM" in
  run (PyBool false) w = (Ok ds, w1) ->
  recursive_flatten configuration_to_find = Ok flat ->
  open_w path = Ok u ->
  json_dump ds = (text, Raise e) ->
  fst (run (PyBool true) w) = Raise e /\
  dict_get (w_fs (snd (run (PyBool true) w))) path = Some text.
Proof.
  intros run path H Hflat Hopen Hdump. unfold run in H.
  destruct (dfttk_returns_inv _ _ _ _ _ _ _ _ _ _ H) as (_ & flat' & Hflat' & Hrun).
  rewrite Hflat in Hflat'. inversion Hflat'; subst flat'.
  unfold run. rewrite Hrun. cbn [is_True].
  fold (dataset_path flat phase_name "CPM_FORM"). fold path.
  rewrite write_file_eq, Hopen, Hdump. cbn [fst snd w_fs set_fs].
  split; [reflexivity | apply dict_get_set].
Qed.

(** Line 117: when [open] raises, the exception leaves the function and
    no file is created or changed, although the three datasets were
    built. *)
Theorem failed_open_writes_nothing phase_name refstate_tags
  configuration_to_find sublattice_site_ratios db_file collection
  temperature_index (w : World num) ds w1 flat e :
  let run := dfttk_writeto_json phase_name refstate_tags configuration_to_find
               sublattice_site_ratios db_file collection temperature_index in
  run (PyBool false) w = (Ok ds, w1) ->
  recursive_flatten configuration_to_find = Ok flat ->
  open_w (dataset_path flat phase_name "CPM_FORM") = Raise e ->
  run (PyBool true) w = (Raise e, w1) /\ w_fs w1 = w_fs w.
Proof.
  intros run H Hflat Hopen. unfold run in H.
  destruct (dfttk_returns_inv _ _ _ _ _ _ _ _ _ _ H) as (Hfs & flat' & Hflat' & Hrun).
  rewrite Hflat in Hflat'. inversion Hflat'; subst flat'.
  split; [|exact Hfs].
  unfold run. rewrite Hrun. cbn [is_True].
  fold (dataset_path flat phase_name "CPM_FORM").
  rewrite write_file_eq, Hopen. reflexivity.
Qed.

End Effects.

(* ================================================================== *)
(** * Records that the loop of lines 92-104 cannot process *)
(* ================================================================== *)

Section RecordFailures.

Context {num Structure : Type} {L : Lib num Structure}.

(** Lines 79-92, then the loop: when the connection, the reference loop
    and the query return and the loop raises, so does the run, and the
    world is as it was. *)
Lemma dfttk_loop_raises phase tags cfg ratios db coll i wf (w : World num)
  u docs rs e :
  VaspCalcDb_from_db_file db true = Ok u ->
  w_db w db coll = Ok docs ->
  for_each_pure tags (refstate_step (Ok docs)) ([], None) = Ok rs ->
  for_each_pure (filter (doc_matches (config_query cfg phase)) docs)
    (qha_body (fst rs) i) qha_init = Raise e ->
  dfttk_writeto_json phase tags cfg ratios db coll i wf w = (Raise e, w).
Proof.
  intros Hdb Hw Hrefs Hloop. unfold dfttk_writeto_json.
  rewrite bind_lift, Hdb.
  unfold bind at 1. rewrite refstate_loop_eq, Hw, Hrefs.
  unfold bind at 1, find at 1. rewrite Hw. cbn [rbind].
  fold (config_query cfg phase).
  rewrite bind_lift, Hloop. reflexivity.
Qed.

(** Lines 93-94: the filter of line 92 asks for the configuration only;
    a matching record that has it but has no ['occupancies'] beside it
    gives a [KeyError] for that key.  [d] is the first matching record. *)
Theorem record_without_occupancies phase_name refstate_tags configuration_to_find
  sublattice_site_ratios db_file collection temperature_index writefile
  (w : World num) u docs rs d others md sl c :
  VaspCalcDb_from_db_file db_file true = Ok u ->
  w_db w db_file collection = Ok docs ->
  for_each_pure refstate_tags (refstate_step (Ok docs)) ([], None) = Ok rs ->
  filter (doc_matches (config_query configuration_to_find phase_name)) docs
  = d :: others ->
  getitem d "metadata" = Ok md ->
  getitem md "sublattice" = Ok (PyDict sl) ->
  dict_get sl "configuration" = Some c ->
  dict_get sl "occupancies" = None ->
  dfttk_writeto_json phase_name refstate_tags configuration_to_find
    sublattice_site_ratios db_file collection temperature_index writefile w =
  (Raise (KeyError "occupancies"), w).
Proof.
  intros Hdb Hw Hrefs Hm Hmd Hsl Hc Ho.
  apply (dfttk_loop_raises _ _ _ _ _ _ _ _ _ u docs rs); try assumption.
  rewrite Hm. cbn [for_each_pure]. unfold qha_body.
  rewrite Hmd. cbn [rbind]. rewrite Hsl. cbn [rbind].
  unfold getitem, dict_item. rewrite Hc, Ho. reflexivity.
Qed.

Lemma py_index_out_of_bounds {A : Type} (a : list A) (i : Z) :
  (i < - Z.of_nat (List.length a) \/ Z.of_nat (List.length a) <= i)%Z ->
  py_index a i = Raise (IndexError "index out of bounds").
Proof.
  intros H. unfold py_index.
  destruct (i <? 0)%Z eqn:Hneg.
  - apply Z.ltb_lt in Hneg.
    replace ((0 <=? i + Z.of_nat (List.length a)) &&
             (i + Z.of_nat (List.length a) <? Z.of_nat (List.length a)))%Z
      with false; [reflexivity|].
    symmetry. apply andb_false_iff. left. apply Z.leb_gt. lia.
  - apply Z.ltb_ge in Hneg.
    replace ((0 <=? i) && (i <? Z.of_nat (List.length a)))%Z with false;
      [reflexivity|].
    symmetry. apply andb_false_iff. right. apply Z.ltb_ge. lia.
Qed.

Lemma py_index_in_bounds {A : Type} (a : list A) (i : Z) :
  (- Z.of_nat (List.length a) <= i < Z.of_nat (List.length a))%Z ->
  exists x,
    py_index a i = Ok x /\
    nth_error a (Z.to_nat (i mod Z.of_nat (List.length a))) = Some x.
Proof.
  intros H. unfold py_index.
  set (n := Z.of_nat (List.length a)) in *.
  destruct (i <? 0)%Z eqn:Hneg.
  - apply Z.ltb_lt in Hneg.
    replace ((0 <=? i + n) && (i + n <? n))%Z with true.
    2:{ symmetry. apply andb_true_iff. split; [apply Z.leb_le | apply Z.ltb_lt]; lia. }
    replace (i mod n)%Z with (i + n)%Z.
    2:{ apply Z.mod_unique with (q := (-1)%Z); lia. }
    destruct (nth_error a (Z.to_nat (i + n))) as [x|] eqn:E.
    + exists x. split; reflexivity.
    + apply nth_error_None in E. unfold n in *. lia.
  - apply Z.ltb_ge in Hneg.
    replace ((0 <=? i) && (i <? n))%Z with true.
    2:{ symmetry. apply andb_true_iff. split; [apply Z.leb_le | apply Z.ltb_lt]; lia. }
    rewrite Z.mod_small by lia.
    destruct (nth_error a (Z.to_nat i)) as [x|] eqn:E.
    + exists x. split; reflexivity.
    + apply nth_error_None in E. unfold n in *. lia.
Qed.

(** Line 100: [temperature_index] is used as a Python index into the
    record's temperatures.  With [n] temperatures every index from [-n]
    to [n - 1] selects one, the negative ones counting from the end, so
    that [i - n] and [i] select the same; every other index is an
    [IndexError]. *)
Theorem temperature_index_range {A : Type} (T : list A) (i : Z) :
  let n := Z.of_nat (List.length T) in
  ((- n <= i < n)%Z ->
   exists x, py_index T i = Ok x /\
             nth_error T (Z.to_nat (i mod n)) = Some x) /\
  ((0 <= i < n)%Z -> py_index T (i - n) = py_index T i) /\
  ((i < - n \/ n <= i)%Z -> py_index T i = Raise (IndexError "index out of bounds")).
Proof.
  intros n. split; [|split].
  - apply py_index_in_bounds.
  - intros Hi.
    destruct (py_index_in_bounds T i) as (x & Hx & Hnth); [fold n; lia|].
    destruct (py_index_in_bounds T (i - n)) as (y & Hy & Hnth'); [fold n; lia|].
    fold n in Hnth, Hnth'.
    replace ((i - n) mod n)%Z with (i mod n)%Z in Hnth'.
    2:{ rewrite (Z.mod_small i n) by lia.
        apply Z.mod_unique with (q := (-1)%Z); lia. }
    rewrite Hx, Hy. congruence.
  - apply py_index_out_of_bounds.
Qed.

(** Line 100 in a run: when [temperature_index] is out of range for the
    temperatures of the first matching record, and every call before line
    100 returned on that record, the run raises [IndexError] and builds
    no dataset. *)
Theorem temperature_index_out_of_range phase_name refstate_tags
  configuration_to_find sublattice_site_ratios db_file collection
  temperature_index writefile (w : World num)
  u docs rs d others c o tprops sd struct hm sm cpm T :
  VaspCalcDb_from_db_file db_file true = Ok u ->
  w_db w db_file collection = Ok docs ->
  for_each_pure refstate_tags (refstate_step (Ok docs)) ([], None) = Ok rs ->
  filter (doc_matches (config_query configuration_to_find phase_name)) docs
  = d :: others ->
  sublattice_field d "configuration" = Ok c ->
  sublattice_field d "occupancies" = Ok o ->
  get_thermal_props d = Ok tprops ->
  getitem d "structure" = Ok sd ->
  Structure_from_dict sd = Ok struct ->
  get_formation_energy tprops struct (fst rs) "HM" (idx temperature_index) = Ok hm ->
  get_formation_energy tprops struct (fst rs) "SM" (idx temperature_index) = Ok sm ->
  get_formation_energy tprops struct (fst rs) "CPM" (thin 10) = Ok cpm ->
  dict_item tprops "T" = Ok T ->
  (temperature_index < - Z.of_nat (List.length T) \/
   Z.of_nat (List.length T) <= temperature_index)%Z ->
  dfttk_writeto_json phase_name refstate_tags configuration_to_find
    sublattice_site_ratios db_file collection temperature_index writefile w =
  (Raise (IndexError "index out of bounds"), w).
Proof.
  intros Hdb Hw Hrefs Hm Hc Ho Htp Hsd Hst Hhm Hsm Hcpm HT Hi.
  apply (dfttk_loop_raises _ _ _ _ _ _ _ _ _ u docs rs); try assumption.
  rewrite Hm. cbn [for_each_pure]. unfold qha_body.
  unfold sublattice_field in Hc, Ho.
  destruct (getitem d "metadata") as [md|]; cbn [rbind] in *; [|discriminate].
  destruct (getitem md "sublattice") as [sl|]; cbn [rbind] in *; [|discriminate].
  rewrite Hc. cbn [rbind]. rewrite Ho. cbn [rbind]. rewrite Htp. cbn [rbind].
  rewrite Hsd. cbn [rbind]. rewrite Hst. cbn [rbind].
  rewrite Hhm. cbn [rbind]. rewrite Hsm. cbn [rbind]. rewrite Hcpm. cbn [rbind].
  rewrite HT. cbn [rbind].
  rewrite (py_index_out_of_bounds _ _ Hi). reflexivity.
Qed.

End RecordFailures.

(* ================================================================== *)
(** * The edge cases on concrete libraries and databases *)
(* ================================================================== *)

Module Cases.

(** A record of tag ["bare"] without a structure, and a record of phase
    HCP_A3 whose sublattice has the configuration but no occupancies. *)
Definition docs : list Demo.value :=
  [PyDict [("metadata", PyDict [("tag", PyStr "bare")])];
   PyDict [("metadata",
            PyDict [("tag", PyStr "hcp-1");
                    ("phase_name", PyStr "HCP_A3");
                    ("sublattice", PyDict [("configuration", Demo.config_FeNi)])])]].

Definition world : World Z := {|
  w_db := fun db_file collection => Ok (Demo.docs ++ docs)%list;
  w_fs := [("FE-NI-FCC_A1-CPM_FORM-DFTTK.json", "an older dataset")];
  w_calls := []
|}.

(** The demo library with a [json.dump] that raises after the opening
    brace. *)
Definition lib_dump_fails : Lib Z Demo.value := {|
  VaspCalcDb_from_db_file := VaspCalcDb_from_db_file (Lib := Demo.lib);
  doc_matches := doc_matches (Lib := Demo.lib);
  Structure_from_dict := Structure_from_dict (Lib := Demo.lib);
  PRLStructure_from_structure := PRLStructure_from_structure (Lib := Demo.lib);
  get_thermal_props := get_thermal_props (Lib := Demo.lib);
  get_formation_energy := get_formation_energy (Lib := Demo.lib);
  make_dataset := make_dataset (Lib := Demo.lib);
  recursive_flatten := recursive_flatten (Lib := Demo.lib);
  open_w := open_w (Lib := Demo.lib);
  json_dump := fun _ => ("{", Raise (TypeError "ndarray is not JSON serializable"))
|}.

(** The demo library in a directory that cannot be written. *)
Definition lib_open_fails : Lib Z Demo.value := {|
  VaspCalcDb_from_db_file := VaspCalcDb_from_db_file (Lib := Demo.lib);
  doc_matches := doc_matches (Lib := Demo.lib);
  Structure_from_dict := Structure_from_dict (Lib := Demo.lib);
  PRLStructure_from_structure := PRLStructure_from_structure (Lib := Demo.lib);
  get_thermal_props := get_thermal_props (Lib := Demo.lib);
  get_formation_energy := get_formation_energy (Lib := Demo.lib);
  make_dataset := make_dataset (Lib := Demo.lib);
  recursive_flatten := recursive_flatten (Lib := Demo.lib);
  open_w := fun path => Raise (LibraryError "PermissionError" path);
  json_dump := json_dump (Lib := Demo.lib)
|}.

(** The demo library with a [get_formation_energy] that accepts every
    index. *)
Definition lib_any_index : Lib Z Demo.value := {|
  VaspCalcDb_from_db_file := VaspCalcDb_from_db_file (Lib := Demo.lib);
  doc_matches := doc_matches (Lib := Demo.lib);
  Structure_from_dict := Structure_from_dict (Lib := Demo.lib);
  PRLStructure_from_structure := PRLStructure_from_structure (Lib := Demo.lib);
  get_thermal_props := get_thermal_props (Lib := Demo.lib);
  get_formation_energy := fun _ _ _ _ s =>
    match s return result (sampled Z s) with
    | idx _ => Ok 0%Z
    | thin _ => Ok []
    end;
  make_dataset := make_dataset (Lib := Demo.lib);
  recursive_flatten := recursive_flatten (Lib := Demo.lib);
  open_w := open_w (Lib := Demo.lib);
  json_dump := json_dump (Lib := Demo.lib)
|}.

End Cases.

Lemma update_metadata_without_record_witness :
  update_metadata (L := Demo.lib) "FCC_A1" "fcc-9" "db.json" "qha" Demo.world =
  (Raise (TypeError "NoneType"), Demo.world).
Proof.
  apply (update_metadata_without_record (L := Demo.lib) "FCC_A1" "fcc-9" "db.json" "qha"
           Demo.world tt Demo.docs); reflexivity.
Defined.

Lemma update_metadata_without_structure_witness :
  update_metadata (L := Demo.lib) "FCC_A1" "bare" "db.json" "qha" Cases.world =
  (Raise (KeyError "structure"), Cases.world).
Proof.
  apply (update_metadata_without_structure (L := Demo.lib) "FCC_A1" "bare" "db.json"
           "qha" Cases.world tt (Demo.docs ++ Cases.docs)%list
           [("metadata", PyDict [("tag", PyStr "bare")])]); reflexivity.
Defined.

Lemma empty_refstate_tags_raise_witness :
  dfttk_writeto_json (L := Demo.lib) "FCC_A1" [] Demo.config_FeNi
    (PyList [PyFloat 1%Z]) "db.json" "qha" 30 (PyBool true) Demo.world =
  (Raise (UnboundLocalError "tag"), Demo.world).
Proof.
  eapply (empty_refstate_tags_raise (L := Demo.lib) "FCC_A1" Demo.config_FeNi
            (PyList [PyFloat 1%Z]) "db.json" "qha" 30%Z (PyBool true) Demo.world
            tt Demo.docs).
  - reflexivity.
  - reflexivity.
  - vm_compute. reflexivity.
  - reflexivity.
  - reflexivity.
  - reflexivity.
  - vm_compute. reflexivity.
Defined.

Lemma missing_reference_record_witness :
  dfttk_writeto_json (L := Demo.lib) "FCC_A1" [("Fe", "ref-fe"); ("Cu", "ref-cu")]
    Demo.config_FeNi (PyList [PyFloat 1%Z]) "db.json" "qha" 30 (PyBool true)
    Demo.world =
  (Raise (TypeError "NoneType"), Demo.world).
Proof.
  eapply (missing_reference_record (L := Demo.lib) "FCC_A1" [("Fe", "ref-fe")]
            "Cu" "ref-cu" [] Demo.config_FeNi (PyList [PyFloat 1%Z]) "db.json" "qha"
            30%Z (PyBool true) Demo.world tt Demo.docs).
  - reflexivity.
  - reflexivity.
  - vm_compute. reflexivity.
  - reflexivity.
  - reflexivity.
Defined.

Lemma returns_cpm_form_dataset_witness :
  exists d3 calls,
    dfttk_writeto_json (L := Demo.lib) "FCC_A1" Demo.refstate_tags Demo.config_FeNi
      (PyList [PyFloat 1%Z]) "db.json" "qha" 30 (PyBool false) Demo.world =
    (Ok d3, log Demo.world calls) /\
    getitem d3 "output" = Ok (PyStr "CPM_FORM") /\
    map md_prop calls = ["HM_FORM"; "SM_FORM"; "CPM_FORM"].
Proof.
  do 2 eexists. split.
  - eapply proj1.
    eapply (returns_cpm_form_dataset (L := Demo.lib) "FCC_A1"
              Demo.refstate_tags Demo.config_FeNi (PyList [PyFloat 1%Z])
              "db.json" "qha" 30%Z Demo.world tt Demo.docs).
    + reflexivity.
    + reflexivity.
    + vm_compute. reflexivity.
    + vm_compute. reflexivity.
    + reflexivity.
    + reflexivity.
    + reflexivity.
    + vm_compute. reflexivity.
    + reflexivity.
    + reflexivity.
    + reflexivity.
  - split; reflexivity.
Defined.

Lemma run_touches_one_file_at_most_witness :
  let run := dfttk_writeto_json (L := Demo.lib) "FCC_A1" Demo.refstate_tags
               Demo.config_FeNi (PyList [PyFloat 1%Z]) "db.json" "qha" 30
               (PyBool true) Cases.world in
  w_db (snd run) = w_db Cases.world /\
  dict_get (w_fs (snd run)) "FE-NI-BCC_A2-CPM_FORM-DFTTK.json" =
  dict_get (w_fs Cases.world) "FE-NI-BCC_A2-CPM_FORM-DFTTK.json".
Proof.
  intros run.
  destruct (run_touches_one_file_at_most (L := Demo.lib) "FCC_A1" Demo.refstate_tags
              Demo.config_FeNi (PyList [PyFloat 1%Z]) "db.json" "qha" 30%Z
              (PyBool true) Cases.world) as (Hdb & _ & Hfs).
  split; [exact Hdb|].
  apply (Hfs ["Fe"; "Ni"]).
  - reflexivity.
  - vm_compute. discriminate.
Defined.

Lemma written_file_holds_cpm_form_witness :
  exists flat c1 c2 c3 ds,
    recursive_flatten (Lib := Demo.lib) Demo.config_FeNi = Ok flat /\
    w_calls (snd (Demo.run (PyBool true))) = (w_calls Demo.world ++ [c1; c2; c3])%list /\
    md_prop c3 = "CPM_FORM" /\
    make_dataset (Lib := Demo.lib) c3 = Ok ds /\
    dict_get (w_fs (snd (Demo.run (PyBool true))))
      (dataset_path flat "FCC_A1" "CPM_FORM") =
    Some (fst (json_dump (Lib := Demo.lib) ds)).
Proof.
  apply (proj2 (written_file_holds_cpm_form (L := Demo.lib) "FCC_A1"
                  Demo.refstate_tags Demo.config_FeNi (PyList [PyFloat 1%Z])
                  "db.json" "qha" 30%Z Demo.world
                  PyNone (snd (Demo.run (PyBool true))) eq_refl)).
Defined.

Lemma failed_dump_leaves_the_file_witness :
  let run := dfttk_writeto_json (L := Cases.lib_dump_fails) "FCC_A1"
               Demo.refstate_tags Demo.config_FeNi (PyList [PyFloat 1%Z])
               "db.json" "qha" 30 in
  fst (run (PyBool true) Cases.world) =
  Raise (TypeError "ndarray is not JSON serializable") /\
  dict_get (w_fs (snd (run (PyBool true) Cases.world)))
    "FE-NI-FCC_A1-CPM_FORM-DFTTK.json" = Some "{".
Proof.
  intros run.
  eapply (failed_dump_leaves_the_file (L := Cases.lib_dump_fails) "FCC_A1"
            Demo.refstate_tags Demo.config_FeNi (PyList [PyFloat 1%Z])
            "db.json" "qha" 30%Z Cases.world _ _ ["Fe"; "Ni"] tt).
  - vm_compute. reflexivity.
  - reflexivity.
  - reflexivity.
  - reflexivity.
Defined.

Lemma failed_open_writes_nothing_witness :
  exists w1,
    dfttk_writeto_json (L := Cases.lib_open_fails) "FCC_A1" Demo.refstate_tags
      Demo.config_FeNi (PyList [PyFloat 1%Z]) "db.json" "qha" 30 (PyBool true)
      Cases.world =
    (Raise (LibraryError "PermissionError" "FE-NI-FCC_A1-CPM_FORM-DFTTK.json"), w1) /\
    w_fs w1 = w_fs Cases.world.
Proof.
  eexists.
  eapply (failed_open_writes_nothing (L := Cases.lib_open_fails) "FCC_A1"
            Demo.refstate_tags Demo.config_FeNi (PyList [PyFloat 1%Z])
            "db.json" "qha" 30%Z Cases.world _ _ ["Fe"; "Ni"]).
  - vm_compute. reflexivity.
  - reflexivity.
  - reflexivity.
Defined.

Lemma record_without_occupancies_witness :
  dfttk_writeto_json (L := Demo.lib) "HCP_A3" Demo.refstate_tags Demo.config_FeNi
    (PyList [PyFloat 1%Z]) "db.json" "qha" 30 (PyBool true) Cases.world =
  (Raise (KeyError "occupancies"), Cases.world).
Proof.
  eapply (record_without_occupancies (L := Demo.lib) "HCP_A3" Demo.refstate_tags
            Demo.config_FeNi (PyList [PyFloat 1%Z]) "db.json" "qha" 30%Z (PyBool true)
            Cases.world tt (Demo.docs ++ Cases.docs)%list).
  - reflexivity.
  - reflexivity.
  - vm_compute. reflexivity.
  - vm_compute. reflexivity.
  - reflexivity.
  - reflexivity.
  - reflexivity.
  - reflexivity.
Defined.

Lemma temperature_index_range_witness :
  (exists x, py_index [280; 290; 300]%Z (-1) = Ok x /\
             nth_error [280; 290; 300]%Z 2 = Some x) /\
  py_index [280; 290; 300]%Z (-1) = py_index [280; 290; 300]%Z 2 /\
  py_index [280; 290; 300]%Z 3 = Raise (IndexError "index out of bounds").
Proof.
  split; [|split].
  - apply (proj1 (temperature_index_range [280; 290; 300]%Z (-1))). simpl. lia.
  - apply (proj1 (proj2 (temperature_index_range [280; 290; 300]%Z 2))). simpl. lia.
  - apply (proj2 (proj2 (temperature_index_range [280; 290; 300]%Z 3))). simpl. lia.
Defined.

Lemma temperature_index_out_of_range_witness :
  dfttk_writeto_json (L := Cases.lib_any_index) "FCC_A1" Demo.refstate_tags
    Demo.config_FeNi (PyList [PyFloat 1%Z]) "db.json" "qha" 41 (PyBool true)
    Demo.world =
  (Raise (IndexError "index out of bounds"), Demo.world).
Proof.
  eapply (temperature_index_out_of_range (L := Cases.lib_any_index) "FCC_A1"
            Demo.refstate_tags Demo.config_FeNi (PyList [PyFloat 1%Z])
            "db.json" "qha" 41%Z (PyBool true) Demo.world tt Demo.docs).
  - reflexivity.
  - reflexivity.
  - vm_compute. reflexivity.
  - vm_compute. reflexivity.
  - reflexivity.
  - reflexivity.
  - vm_compute. reflexivity.
  - reflexivity.
  - reflexivity.
  - reflexivity.
  - reflexivity.
  - reflexivity.
  - reflexivity.
  - vm_compute. right. discriminate.
Defined.
